(** * Video Editing Agency API: a shallow embedding of [main.py]

    The handlers of [main.py] are embedded as programs of a small
    state-and-exception monad over the state of the process (the document
    store, the [db] handle, the environment, the clock and the entropy
    source).  A Python [str] is the [string] of its UTF-8 bytes: equality,
    concatenation and the search for an ASCII character are those of the
    bytes, while lengths and slices count code points ([len], [slice_to]).
    A [dict] is a [gmap] with string keys; a [list] is a [list].

    The third-party collaborators ([passlib], [python-jose], the web
    framework) are not part of the repository.  Their primitives (the bcrypt
    digest, the HS256 signature, the interpreter's [int] on a string) are
    taken as parameters through the classes [BcryptHandler], [Signer] and
    [Builtins]; what the program relies on around these
    primitives (scheme identification, expiry validation) is written out. *)

From stdpp Require Import gmap strings list fin_maps.
From Stdlib Require Import ZArith Ascii.

Local Open Scope Z_scope.

(** ** Exceptions and results *)

Inductive exn : Type :=
  | HTTPException (status_code : Z) (detail : string)
  | JWTError (msg : string)          (* jose.JWTError and its subclasses *)
  | UnknownHashError                 (* passlib.exc.UnknownHashError *)
  | Exception (msg : string).        (* any other [Exception], with its text *)

#[global] Instance exn_eq_dec : EqDecision exn.
Proof. solve_decision. Defined.

(** [str(e)] *)
Definition str (e : exn) : string :=
  match e with
  | HTTPException _ detail => detail
  | JWTError msg => msg
  | UnknownHashError => "hash could not be identified"
  | Exception msg => msg
  end.

(** [except JWTError] handles the first class only; [except Exception]
    handles every one of them. *)
Definition is_JWTError (e : exn) : bool :=
  match e with JWTError _ => true | _ => false end.

Definition is_Exception (e : exn) : bool := true.

Inductive result (A : Type) : Type :=
  | Return (a : A)
  | Raise (e : exn).
Arguments Return {A} a.
Arguments Raise {A} e.

#[global] Instance result_ret : MRet result := λ A a, Return a.

#[global] Instance result_bind : MBind result := λ A B f r,
  match r with
  | Return a => f a
  | Raise e => Raise e
  end.

(** ** The monad of handlers: state [S], results or exceptions.

    The state reached when an exception is raised is kept: assignments made
    before a [raise] are seen by the handler that catches it. *)

Definition M (S A : Type) : Type := S → result A * S.

#[global] Instance M_ret {S} : MRet (M S) := λ A a s, (Return a, s).

#[global] Instance M_bind {S} : MBind (M S) := λ A B f m s,
  match m s with
  | (Return a, s') => f a s'
  | (Raise e, s') => (Raise e, s')
  end.

Definition raise {S A} (e : exn) : M S A := λ s, (Raise e, s).
Definition get {S} : M S S := λ s, (Return s, s).
Definition put {S} (s : S) : M S () := λ _, (Return (), s).
Definition modify {S} (f : S → S) : M S () := λ s, (Return (), f s).

(** [try: body / except <class> as e: handler e] *)
Definition try_except {S A} (body : M S A) (class : exn → bool)
    (handler : exn → M S A) : M S A := λ s,
  match body s with
  | (Raise e, s') => if class e then handler e s' else (Raise e, s')
  | r => r
  end.

(** What the web framework answers: the status of an [HTTPException] that
    reaches it, 500 for any other exception, 200 for a returned value. *)
Definition status_of {A} (r : result A) : Z :=
  match r with
  | Return _ => 200
  | Raise (HTTPException code _) => code
  | Raise _ => 500
  end.

(** ** Strings *)

(** [s.split(sep)] for a separator of one character. *)
Fixpoint split (sep : ascii) (s : string) : list string :=
  match s with
  | EmptyString => [EmptyString]
  | String c s' =>
      if bool_decide (c = sep) then EmptyString :: split sep s'
      else match split sep s' with
           | [] => [String c EmptyString]
           | w :: ws => String c w :: ws
           end
  end.

(** A continuation byte of UTF-8, [10xxxxxx]: every other byte starts a code
    point. *)
Definition is_continuation (c : ascii) : bool :=
  match c with Ascii _ _ _ _ _ _ b6 b7 => b7 && negb b6 end.

(** [len(s)]: the number of code points. *)
Fixpoint len (s : string) : nat :=
  match s with
  | EmptyString => 0
  | String c s' => (if is_continuation c then 0 else 1) + len s'
  end.

(** [s[:n]]: the first [n] code points, each with all its bytes. *)
Fixpoint slice_to (n : nat) (s : string) : string :=
  match s with
  | EmptyString => EmptyString
  | String c s' =>
      if is_continuation c then String c (slice_to n s')
      else match n with
           | O => EmptyString
           | S n' => String c (slice_to n' s')
           end
  end.

(** [s.startswith(p)] *)
Fixpoint startswith (p s : string) : bool :=
  match p, s with
  | EmptyString, _ => true
  | String a p', String b s' => bool_decide (a = b) && startswith p' s'
  | String _ _, EmptyString => false
  end.

(** [c in s] for a character [c] *)
Fixpoint str_contains (c : ascii) (s : string) : bool :=
  match s with
  | EmptyString => false
  | String a s' => bool_decide (a = c) || str_contains c s'
  end.

(** ** Values stored in dictionaries *)

Inductive value : Type :=
  | VNone
  | VStr (s : string)
  | VInt (n : Z)
  | VBool (b : bool)
  | VDatetime (us : Z).     (* a [datetime], in microseconds since the epoch *)

#[global] Instance value_eq_dec : EqDecision value.
Proof. solve_decision. Defined.

(** [d.get(k)]: [None] when the key is absent. *)
Definition dict_get (d : gmap string value) (k : string) : value :=
  default VNone (d !! k).

(** [d.get(k, dflt)] *)
Definition dict_get_default (d : gmap string value) (k : string)
    (dflt : value) : value :=
  default dflt (d !! k).

(** Truth value of a list: [if xs:] *)
Definition truthy {A} (xs : list A) : bool :=
  match xs with [] => false | _ => true end.

(** ** External collaborators *)

(** The bcrypt handler of [passlib]: the digest computation itself.  [hash]
    gets the salt the library would draw; both may raise (the library
    rejects some secrets and malformed digests). *)
Class BcryptHandler : Type := {
  bcrypt_hash : string → string → result string;     (* salt, secret *)
  bcrypt_verify : string → string → result bool      (* secret, hash *)
}.

(** The interpreter's [int(s)] on a string; [None] stands for the
    [ValueError] of a string that is no integer literal. *)
Class Builtins : Type := {
  int_of_str : string → option Z
}.

(** The signature primitive of [python-jose]: algorithm, key, payload. *)
Class Signer : Type := {
  sign : string → string → gmap string value → string
}.

(** A bearer token: the compact serialisation is not modelled, a token is
    the header algorithm, the payload and the signature it carries; any other
    string is [Opaque]. *)
Inductive token : Type :=
  | JWS (alg : string) (payload : gmap string value) (signature : string)
  | Opaque (s : string).

(** The object bound to [db], as [test_database] observes it. *)
Inductive attribute : Type :=
  | NoAttr
  | Attr (v : string)
  | AttrRaises (e : exn).

Record Database : Type := {
  db_name : attribute;                              (* [db.name] *)
  db_list_collection_names : result (list string)   (* [db.list_collection_names()] *)
}.

(** Modelled from the spec: the state of the document store behind
    [database.py] (the module is not among the sources): collections of
    documents in insertion order; while [outage] is set every round-trip
    fails with that message (the spec's [StorageFailure]). *)
Record Store : Type := {
  collections : gmap string (list (gmap string value));
  outage : option string
}.

(** ** The state of the process *)

Record World : Type := {
  store : Store;
  db : option Database;
  environ : gmap string string;
  utcnow : Z;                 (* the clock, in microseconds since the epoch *)
  entropy : nat → string;     (* the salts the hasher draws, in order *)
  drawn : nat                 (* how many were drawn *)
}.

Definition set_store (st : Store) (w : World) : World :=
  {| store := st; db := db w; environ := environ w; utcnow := utcnow w;
     entropy := entropy w; drawn := drawn w |}.

Definition set_drawn (n : nat) (w : World) : World :=
  {| store := store w; db := db w; environ := environ w; utcnow := utcnow w;
     entropy := entropy w; drawn := n |}.

Definition lift {S A} (r : result A) : M S A := λ s, (r, s).

Definition gets {S A} (f : S → A) : M S A := λ s, (Return (f s), s).

(** [os.getenv(k)] and [os.getenv(k, dflt)] *)
Definition getenv (w : World) (k : string) : option string := environ w !! k.

Definition getenv_default (w : World) (k dflt : string) : string :=
  default dflt (getenv w k).

(** [datetime.utcnow()] *)
Definition datetime_utcnow : M World Z := gets utcnow.

(** ** [database.py] *)

(** Modelled from the spec: [get_documents(collection, filter, limit)] of
    [database.py] returns the documents of the collection that carry every
    field of the filter with the same value (exact match), in insertion
    order, at most [limit] of them. *)
Definition get_documents (collection_name : string)
    (filter_dict : gmap string value) (limit : option nat)
    : M World (list (gmap string value)) :=
  w ← get;
  match outage (store w) with
  | Some msg => raise (Exception msg)
  | None =>
      let docs := default [] (collections (store w) !! collection_name) in
      let found :=
        filter (λ d, map_Forall (λ k v, d !! k = Some v) filter_dict) docs in
      mret (match limit with Some n => take n found | None => found end)
  end.

(** Modelled from the spec: [create_document(collection, doc)] of
    [database.py] appends the document to the collection: one durable
    write. *)
Definition create_document (collection_name : string)
    (data : gmap string value) : M World () :=
  w ← get;
  match outage (store w) with
  | Some msg => raise (Exception msg)
  | None =>
      let docs := default [] (collections (store w) !! collection_name) in
      put (set_store
             {| collections :=
                  <[collection_name := docs ++ [data]]> (collections (store w));
                outage := None |} w)
  end.

(** ** [passlib.context.CryptContext(schemes=["bcrypt"])] *)

Module pwd_context.

(** The prefixes by which the bcrypt scheme identifies its hashes. *)
Definition ident_values : list string :=
  ["$2$"; "$2a$"; "$2x$"; "$2y$"; "$2b$"].

Definition identify (hash : string) : bool :=
  existsb (λ ident, startswith ident hash) ident_values.

(** [verify(secret, hash)]: [None] is answered [False]; a string that no
    configured scheme identifies raises [UnknownHashError]; anything that
    is not a string is a type error. *)
Definition verify `{BcryptHandler} (secret : string) (hash : value)
    : result bool :=
  match hash with
  | VNone => Return false
  | VStr h =>
      if identify h then bcrypt_verify secret h else Raise UnknownHashError
  | _ => Raise (Exception "hash must be unicode or bytes")
  end.

(** [hash(secret)]: a fresh salt is drawn for every call. *)
Definition hash `{BcryptHandler} (secret : string) : M World string :=
  w ← get;
  _ ← put (set_drawn (S (drawn w)) w);
  lift (bcrypt_hash (entropy w (drawn w)) secret).

End pwd_context.

(** ** [jose.jwt] *)

Module jwt.

(** [calendar.timegm(d.utctimetuple())]: whole seconds. *)
Definition timegm (us : Z) : Z := us `div` 1000000.

Definition is_datetime (v : value) : bool :=
  match v with VDatetime _ => true | _ => false end.

Definition to_intdate (k : string) (claims : gmap string value)
    : gmap string value :=
  match claims !! k with
  | Some (VDatetime us) => <[k := VInt (timegm us)]> claims
  | _ => claims
  end.

(** [jwt.encode(claims, key, algorithm)]: the time claims that are
    datetimes become integer dates, the payload is serialised and signed. *)
Definition encode `{Signer} (claims : gmap string value)
    (key algorithm : string) : result token :=
  let claims := foldr to_intdate claims ["exp"; "iat"; "nbf"] in
  if bool_decide (map_Forall (λ _ v, is_datetime v = false) claims)
  then Return (JWS algorithm claims (sign algorithm key claims))
  else Raise (Exception "Object of type datetime is not JSON serializable").

(** [int(v)] on the value of a claim: a [ValueError] for a string that is
    no integer literal, a [TypeError] for [None]. *)
Inductive int_outcome : Type :=
  | IntOk (n : Z)
  | IntValueError
  | IntTypeError.

Definition int_of `{Builtins} (v : value) : int_outcome :=
  match v with
  | VInt n => IntOk n
  | VBool b => IntOk (if b then 1 else 0)
  | VStr s =>
      match int_of_str s with
      | Some n => IntOk n
      | None => IntValueError
      end
  | VNone | VDatetime _ => IntTypeError
  end.

(** The [TypeError] of [int(v)], which names the type of [v]. *)
Definition int_type_error (v : value) : exn :=
  Exception
    ("int() argument must be a string, a bytes-like object or a real number, not '"
     +:+ match v with
         | VNone => "NoneType"
         | VStr _ => "str"
         | VInt _ => "int"
         | VBool _ => "bool"
         | VDatetime _ => "datetime.datetime"
         end +:+ "'").

(** [try: n = int(claims[k]) / except ValueError: raise JWTClaimsError(msg)]
    for a claim that is present: the [TypeError] is not caught. *)
Definition int_claim `{Builtins} (claims : gmap string value)
    (k msg : string) : result (option Z) :=
  match claims !! k with
  | None => Return None
  | Some v =>
      match int_of v with
      | IntOk n => Return (Some n)
      | IntValueError => Raise (JWTError msg)
      | IntTypeError => Raise (int_type_error v)
      end
  end.

Definition validate_iat `{Builtins} (claims : gmap string value)
    : result () :=
  _ ← int_claim claims "iat" "Issued At claim (iat) must be an integer.";
  Return ().

Definition validate_nbf `{Builtins} (claims : gmap string value) (now : Z)
    : result () :=
  nbf ← int_claim claims "nbf" "Not Before claim (nbf) must be an integer.";
  match nbf with
  | Some nbf =>
      if bool_decide (now < nbf)
      then Raise (JWTError "The token is not yet valid (nbf)")
      else Return ()
  | None => Return ()
  end.

Definition validate_exp `{Builtins} (claims : gmap string value) (now : Z)
    : result () :=
  exp ← int_claim claims "exp"
          "Expiration Time claim (exp) must be an integer.";
  match exp with
  | Some exp =>
      if bool_decide (exp < now)
      then Raise (JWTError "Signature has expired.")
      else Return ()
  | None => Return ()
  end.

(** No audience is passed to [decode]: a token with an [aud] claim is
    refused. *)
Definition validate_aud (claims : gmap string value) : result () :=
  match claims !! "aud" with
  | None => Return ()
  | Some (VStr _) => Raise (JWTError "Invalid audience")
  | Some _ => Raise (JWTError "Invalid claim format in token")
  end.

Definition validate_sub (claims : gmap string value) : result () :=
  match claims !! "sub" with
  | None | Some (VStr _) => Return ()
  | Some _ => Raise (JWTError "Subject must be a string.")
  end.

Definition validate_jti (claims : gmap string value) : result () :=
  match claims !! "jti" with
  | None | Some (VStr _) => Return ()
  | Some _ => Raise (JWTError "JWT ID must be a string.")
  end.

(** No access token is passed to [decode]: a token with an [at_hash] claim
    is refused. *)
Definition validate_at_hash (claims : gmap string value) : result () :=
  match claims !! "at_hash" with
  | None => Return ()
  | Some _ =>
      Raise (JWTError
        "No access_token provided to compare against at_hash claim.")
  end.

(** The validation of the claims, in the order of the library; no issuer
    is passed, so [iss] is not looked at. *)
Definition validate_claims `{Builtins} (claims : gmap string value)
    (now : Z) : result () :=
  _ ← validate_iat claims;
  _ ← validate_nbf claims now;
  _ ← validate_exp claims now;
  _ ← validate_aud claims;
  _ ← validate_sub claims;
  _ ← validate_jti claims;
  validate_at_hash claims.

(** [jwt.decode(token, key, algorithms)]: a failure of the signature or of
    a claim is a [JWTError]. *)
Definition decode `{Builtins} `{Signer} (tok : token) (key : string)
    (algorithms : list string) : M World (gmap string value) :=
  match tok with
  | Opaque _ => raise (JWTError "Not enough segments")
  | JWS alg payload signature =>
      if negb (bool_decide (alg ∈ algorithms))
      then raise (JWTError "The specified alg value is not allowed")
      else if negb (bool_decide (signature = sign alg key payload))
      then raise (JWTError "Signature verification failed.")
      else
        now ← datetime_utcnow;
        _ ← lift (validate_claims payload (timegm now));
        mret payload
  end.

End jwt.

(** * [main.py] *)

(** ** Models *)

Module Token.
Record t : Type := mk { access_token : token; token_type : string }.
(** [Token(access_token=...)]: [token_type] defaults to ["bearer"]. *)
Definition new (access_token : token) : t := mk access_token "bearer".
End Token.

Module ContactIn.
Record t : Type := mk { name : string; email : string; message : string }.
Definition model_dump (m : t) : gmap string value :=
  <["name" := VStr (name m)]> (<["email" := VStr (email m)]>
    (<["message" := VStr (message m)]> ∅)).
End ContactIn.

Module Testimonial.
Record t : Type :=
  mk { name : string; role : string; quote : string; avatar : option string }.
(** [Testimonial(name=..., role=..., quote=...)]: [avatar] defaults to
    [None]. *)
Definition new (name role quote : string) : t := mk name role quote None.
End Testimonial.

Module PricingTier.
(** [price] is a float in the source; the three literals are integers. *)
Record t : Type :=
  mk { name : string; price : Z; description : string;
       features : list string }.
End PricingTier.

Module AuthIn.
Record t : Type := mk { email : string; password : string }.
End AuthIn.

Section main.
Context `{!BcryptHandler} `{!Builtins} `{!Signer}.

(** ** Environment / auth config *)

(** [SECRET_KEY = os.getenv("SECRET_KEY", "supersecretkeychange")]: read from
    the environment of the process. *)
Definition SECRET_KEY (w : World) : string :=
  getenv_default w "SECRET_KEY" "supersecretkeychange".

Definition ALGORITHM : string := "HS256".
Definition ACCESS_TOKEN_EXPIRE_MINUTES : Z := 60 * 24.

(** [timedelta(minutes=m)], in microseconds. *)
Definition timedelta_minutes (m : Z) : Z := m * 60 * 1000000.

(** ** Auth utilities *)

Definition verify_password (plain_password : string) (hashed_password : value)
    : M World bool :=
  lift (pwd_context.verify plain_password hashed_password).

Definition get_password_hash (password : string) : M World string :=
  pwd_context.hash password.

(** [expires_delta or timedelta(...)]: [None] and the zero duration are
    both false. *)
Definition or_timedelta (expires_delta : option Z) (dflt : Z) : Z :=
  match expires_delta with
  | Some d => if bool_decide (d = 0) then dflt else d
  | None => dflt
  end.

(** The clock is taken inside the range of [datetime]: the [OverflowError] of
    a sum past its ends (years 1 and 9999) is not modelled. *)
Definition create_access_token (data : gmap string value)
    (expires_delta : option Z) : M World token :=
  let to_encode := data in
  now ← datetime_utcnow;
  let expire :=
    now + or_timedelta expires_delta
            (timedelta_minutes ACCESS_TOKEN_EXPIRE_MINUTES) in
  let to_encode := <["exp" := VDatetime expire]> to_encode in
  key ← gets SECRET_KEY;
  lift (jwt.encode to_encode key ALGORITHM).

Definition credentials_exception : exn :=
  HTTPException 401 "Could not validate credentials".

Definition get_current_user (tok : token) : M World (gmap string value) :=
  email ← try_except
    (key ← gets SECRET_KEY;
     payload ← jwt.decode tok key [ALGORITHM];
     let email := dict_get payload "sub" in
     if bool_decide (email = VNone) then raise credentials_exception
     else mret email)
    is_JWTError
    (λ _, raise credentials_exception);
  users ← get_documents "agencyuser" (<["email" := email]> ∅) (Some 1%nat);
  match users with
  | [] => raise credentials_exception
  | user :: _ => mret user
  end.

(** ** Routes *)

Definition root : gmap string value :=
  <["status" := VStr "ok"]>
    (<["service" := VStr "Video Editing Agency API"]> ∅).

Definition get_pricing : M World (list PricingTier.t) :=
  mret [
    PricingTier.mk "Starter" 299 "Perfect for quick social edits"
      ["Up to 60s video"; "1 revision"; "48h delivery"];
    PricingTier.mk "Pro" 699 "For creators and brands"
      ["Up to 5 min"; "3 revisions"; "Color + sound mix"];
    PricingTier.mk "Studio" 1499 "Agency-level polish"
      ["10+ min"; "Unlimited revisions"; "Motion graphics"]
  ].

Definition get_testimonials : M World (list Testimonial.t) :=
  mret [
    Testimonial.new "Ava Stone" "Creator"
      "They made my content pop — fast and flawless!";
    Testimonial.new "Liam Chen" "Brand Manager"
      "Consistent quality and on-time delivery every time.";
    Testimonial.new "Maya Patel" "Founder"
      "Our ads converted 2x better after their edits."
  ].

Definition contact (message : ContactIn.t) : M World (gmap string value) :=
  try_except
    (_ ← create_document "contactmessage" (ContactIn.model_dump message);
     mret (<["ok" := VBool true]> (<["received" := VBool true]> ∅)))
    is_Exception
    (λ e, raise (HTTPException 500 (str e))).

(** [email.split("@")[0]]: [split] never returns the empty list. *)
Definition local_part (email : string) : string :=
  match split "@" email with
  | w :: _ => w
  | [] => EmptyString
  end.

Definition register (payload : AuthIn.t) : M World Token.t :=
  let email := AuthIn.email payload in
  let password := AuthIn.password payload in
  existing ← get_documents "agencyuser" (<["email" := VStr email]> ∅)
                (Some 1%nat);
  if truthy existing
  then raise (HTTPException 400 "Email already registered")
  else
    password_hash ← get_password_hash password;
    _ ← create_document "agencyuser"
          (<["email" := VStr email]>
             (<["password_hash" := VStr password_hash]>
                (<["name" := VStr (local_part email)]> ∅)));
    access_token ← create_access_token (<["sub" := VStr email]> ∅) None;
    mret (Token.new access_token).

Definition login (payload : AuthIn.t) : M World Token.t :=
  let email := AuthIn.email payload in
  let password := AuthIn.password payload in
  user ← get_documents "agencyuser" (<["email" := VStr email]> ∅)
            (Some 1%nat);
  match user with
  | [] => raise (HTTPException 400 "Invalid credentials")
  | user :: _ =>
      ok ← verify_password password
             (dict_get_default user "password_hash" (VStr ""));
      if negb ok
      then raise (HTTPException 400 "Invalid credentials")
      else
        access_token ← create_access_token (<["sub" := VStr email]> ∅) None;
        mret (Token.new access_token)
  end.

Definition me (current_user : gmap string value) : gmap string value :=
  <["email" := dict_get current_user "email"]>
    (<["name" := dict_get current_user "name"]> ∅).

(** [GET /me]: the dependency [get_current_user] runs first. *)
Definition me_route (tok : token) : M World (gmap string value) :=
  current_user ← get_current_user tok;
  mret (me current_user).

End main.

(** ** [GET /test] *)

(** The [response] dictionary of [test_database]: its six keys are fixed, the
    values are assigned in place. *)
Module Response.
Record t : Type := mk {
  backend : string;
  database : string;
  database_url : option string;
  database_name : option string;
  connection_status : string;
  collections : list string
}.

Definition set_database (v : string) : M t () := modify (λ r,
  mk (backend r) v (database_url r) (database_name r)
     (connection_status r) (collections r)).
Definition set_database_url (v : string) : M t () := modify (λ r,
  mk (backend r) (database r) (Some v) (database_name r)
     (connection_status r) (collections r)).
Definition set_database_name (v : string) : M t () := modify (λ r,
  mk (backend r) (database r) (database_url r) (Some v)
     (connection_status r) (collections r)).
Definition set_connection_status (v : string) : M t () := modify (λ r,
  mk (backend r) (database r) (database_url r) (database_name r)
     v (collections r)).
Definition set_collections (v : list string) : M t () := modify (λ r,
  mk (backend r) (database r) (database_url r) (database_name r)
     (connection_status r) v).
End Response.

(** [hasattr(db, 'name')] and [db.name]: an attribute whose lookup raises
    makes both raise. *)
Definition hasattr_name {S} (d : Database) : M S bool :=
  match db_name d with
  | NoAttr => mret false
  | Attr _ => mret true
  | AttrRaises e => raise e
  end.

Definition getattr_name {S} (d : Database) : M S string :=
  match db_name d with
  | NoAttr => raise (Exception "object has no attribute 'name'")
  | Attr v => mret v
  | AttrRaises e => raise e
  end.

(** Truth value of [os.getenv(k)]: set and not empty. *)
Definition env_truthy (v : option string) : bool :=
  match v with
  | Some (String _ _) => true
  | _ => false
  end.

Definition initial_response : Response.t :=
  Response.mk "✅ Running" "❌ Not Available" None None "Not Connected" [].

(** The body of [test_database] over its local [response]. *)
Definition test_database_body (w : World) : M Response.t Response.t :=
  _ ← try_except
    (match db w with
     | Some db =>
         _ ← Response.set_database "✅ Available";
         _ ← Response.set_database_url "✅ Configured";
         has ← hasattr_name db;
         name ← (if has : bool then getattr_name db else mret "✅ Connected");
         _ ← Response.set_database_name name;
         _ ← Response.set_connection_status "Connected";
         try_except
           (collections ← lift (db_list_collection_names db);
            _ ← Response.set_collections (take 10%nat collections);
            Response.set_database "✅ Connected & Working")
           is_Exception
           (λ e, Response.set_database
                   ("⚠️  Connected but Error: " +:+ slice_to 50%nat (str e)))
     | None => Response.set_database "⚠️  Available but not initialized"
     end)
    is_Exception
    (λ e, Response.set_database ("❌ Error: " +:+ slice_to 50%nat (str e)));
  _ ← Response.set_database_url
        (if env_truthy (getenv w "DATABASE_URL") then "✅ Set" else "❌ Not Set");
  _ ← Response.set_database_name
        (if env_truthy (getenv w "DATABASE_NAME") then "✅ Set" else "❌ Not Set");
  get.

Definition test_database : M World Response.t :=
  w ← get;
  lift (test_database_body w initial_response).1.

(** ** Test doubles

    A fake hasher and a fake signer, and a small process state, on which the
    handlers run on concrete inputs. *)

Definition fake_bcrypt : BcryptHandler := {|
  bcrypt_hash salt secret := Return ("$2b$12$" +:+ salt +:+ "$" +:+ secret);
  bcrypt_verify secret h :=
    match split "$" h with
    | [_; _; _; _; digest] => Return (bool_decide (digest = secret))
    | _ => Raise (Exception "malformed bcrypt hash")
    end
|}.

(** Decimal digits only. *)
Fixpoint digits_to_Z (acc : Z) (s : string) : option Z :=
  match s with
  | EmptyString => Some acc
  | String c s' =>
      let d := Z.of_nat (nat_of_ascii c) - 48 in
      if bool_decide (0 ≤ d ≤ 9) then digits_to_Z (10 * acc + d) s' else None
  end.

Definition fake_builtins : Builtins := {|
  int_of_str s :=
    match s with
    | EmptyString => None
    | _ => digits_to_Z 0 s
    end
|}.

Definition fake_signer : Signer := {|
  sign alg key payload := alg +:+ "." +:+ key
|}.

Definition world0 : World := {|
  store := {| collections := ∅; outage := None |};
  db := None;
  environ := ∅;
  utcnow := 1700000000000000;
  entropy := λ n, "salt" +:+ String (ascii_of_nat (48 + n)) EmptyString;
  drawn := 0
|}.

Definition alice : AuthIn.t := AuthIn.mk "alice@example.com" "pw".

(** ** States named in the properties *)

(** The document [register] writes for an email, a hash and a name. *)
Definition user_document (email password_hash : string)
    : gmap string value :=
  <["email" := VStr email]>
    (<["password_hash" := VStr password_hash]>
       (<["name" := VStr (local_part email)]> ∅)).

(** The state [register] leaves after a successful registration: one salt
    drawn, one document appended to [agencyuser]. *)
Definition registered (email password_hash : string) (w : World) : World :=
  set_store
    {| collections :=
         <["agencyuser" :=
             default [] (collections (store w) !! "agencyuser")
               ++ [user_document email password_hash]]>
           (collections (store w));
       outage := None |}
    (set_drawn (S (drawn w)) w).

(** The state after alice registered in [world0], with the fake hasher. *)
Definition alice_hash : string := "$2b$12$salt0$pw".

Definition world_alice : World :=
  registered "alice@example.com" alice_hash world0.

(** The token the fake signer issues for alice in [world0]. *)
Definition alice_claims : gmap string value :=
  <["exp" := VInt 1700086400]> (<["sub" := VStr "alice@example.com"]> ∅).

Definition alice_token : token :=
  JWS "HS256" alice_claims "HS256.supersecretkeychange".

(** A record of [agencyuser] that lacks the [password_hash] field. *)
Definition world_bob : World :=
  set_store
    {| collections :=
         <["agencyuser" :=
             [<["email" := VStr "bob@example.com"]>
                (<["name" := VStr "bob"]> ∅)]]> ∅;
       outage := None |} world0.

(** ["sep".join(parts)] *)
Fixpoint join (sep : string) (parts : list string) : string :=
  match parts with
  | [] => EmptyString
  | [p] => p
  | p :: ps => p +:+ sep +:+ join sep ps
  end.

(** At most one record of [agencyuser] carries any given email. *)
Definition unique_emails (w : World) : Prop :=
  ∀ email : value,
    (length (filter (λ d : gmap string value, d !! "email" = Some email)
               (default [] (collections (store w) !! "agencyuser"))) ≤ 1)%nat.

(** [world0] two days later, under another key, and with the store down. *)
Definition world_late : World :=
  {| store := store world_alice; db := None; environ := ∅;
     utcnow := 1700172800000000; entropy := entropy world0; drawn := 1 |}.

Definition world_rekeyed : World :=
  {| store := store world_alice; db := None;
     environ := <["SECRET_KEY" := "rotated"]> ∅;
     utcnow := utcnow world0; entropy := entropy world0; drawn := 1 |}.

Definition world_down : World :=
  set_store {| collections := ∅; outage := Some "connection refused" |}
    world0.

Definition hello : ContactIn.t :=
  ContactIn.mk "Ann" "ann@example.com" "Hello".

(** Tokens signed under the default key that the program does not issue:
    an [exp] given as a string, an [exp] that is [null], a [nbf] in the
    future, an audience. *)
Definition signed (payload : gmap string value) : token :=
  JWS "HS256" payload "HS256.supersecretkeychange".

Definition string_exp_token : token :=
  signed (<["exp" := VStr "9999999999"]>
            (<["sub" := VStr "alice@example.com"]> ∅)).

Definition null_exp_token : token :=
  signed (<["exp" := VNone]> (<["sub" := VStr "alice@example.com"]> ∅)).

Definition future_nbf_token : token :=
  signed (<["nbf" := VInt 9999999999]>
            (<["sub" := VStr "alice@example.com"]> ∅)).

Definition audience_token : token :=
  signed (<["aud" := VStr "app"]>
            (<["sub" := VStr "alice@example.com"]> ∅)).

(** A record of [agencyuser] whose [password_hash] is [None]. *)
Definition world_bob_null : World :=
  set_store
    {| collections :=
         <["agencyuser" :=
             [<["email" := VStr "bob@example.com"]>
                (<["password_hash" := VNone]>
                   (<["name" := VStr "bob"]> ∅))]]> ∅;
       outage := None |} world0.

(** [datetime.min] and [datetime.max], in microseconds since the epoch. *)
Definition datetime_min : Z := -62135596800000000.
Definition datetime_max : Z := 253402300799999999.

(** * Properties *)

(** ** The monad *)

Lemma bind_Return {S A B} (m : M S A) (f : A → M S B) s a s' :
  m s = (Return a, s') → (m ≫= f) s = f a s'.
Proof. intros Hm. unfold mbind, M_bind. by rewrite Hm. Qed.

Lemma bind_Raise {S A B} (m : M S A) (f : A → M S B) s e s' :
  m s = (Raise e, s') → (m ≫= f) s = (Raise e, s').
Proof. intros Hm. unfold mbind, M_bind. by rewrite Hm. Qed.

Lemma try_except_Return {S A} (body : M S A) class handler s a s' :
  body s = (Return a, s') → try_except body class handler s = (Return a, s').
Proof. intros Hb. unfold try_except. by rewrite Hb. Qed.

Lemma try_except_caught {S A} (body : M S A) class handler s e s' :
  body s = (Raise e, s') → class e = true →
  try_except body class handler s = handler e s'.
Proof. intros Hb Hc. unfold try_except. by rewrite Hb, Hc. Qed.

Lemma try_except_passed {S A} (body : M S A) class handler s e s' :
  body s = (Raise e, s') → class e = false →
  try_except body class handler s = (Raise e, s').
Proof. intros Hb Hc. unfold try_except. by rewrite Hb, Hc. Qed.

(** ** Static content *)

(** C8: [get_pricing] returns the same three tiers, Starter, Pro and Studio in
    that order, and [get_testimonials] the same three testimonials, whatever
    the state of the process: any two calls return equal results, and neither
    call changes the state. *)
Theorem static_content_fixed (w1 w2 : World) :
  (∃ tiers,
     get_pricing w1 = (Return tiers, w1) ∧
     get_pricing w2 = (Return tiers, w2) ∧
     length tiers = 3%nat ∧
     PricingTier.name <$> tiers = ["Starter"; "Pro"; "Studio"]) ∧
  (∃ quotes,
     get_testimonials w1 = (Return quotes, w1) ∧
     get_testimonials w2 = (Return quotes, w2) ∧
     length quotes = 3%nat ∧
     Testimonial.name <$> quotes = ["Ava Stone"; "Liam Chen"; "Maya Patel"]).
Proof.
  split; eexists; repeat split; reflexivity.
Qed.

(** ** [/me] *)

Lemma me_route_unfold `{!Builtins} `{!Signer} (tok : token) (w : World) :
  me_route tok w =
    match get_current_user tok w with
    | (Return current_user, w') => (Return (me current_user), w')
    | (Raise e, w') => (Raise e, w')
    end.
Proof.
  unfold me_route, mbind, M_bind.
  by destruct (get_current_user tok w) as [[u|e] w'].
Qed.


(** ** The store adapter and the libraries *)

Lemma get_documents_reads_only c f l w : (get_documents c f l w).2 = w.
Proof.
  unfold get_documents, mbind, M_bind, get, raise, mret, M_ret. simpl.
  by destruct (outage (store w)).
Qed.

Lemma get_documents_Return c f l w docs w' :
  get_documents c f l w = (Return docs, w') → w' = w ∧ outage (store w) = None.
Proof.
  intros Hg. pose proof (get_documents_reads_only c f l w) as Hw.
  rewrite Hg in Hw. simpl in Hw. split; [done|].
  revert Hg. unfold get_documents, mbind, M_bind, get, raise. simpl.
  by destruct (outage (store w)).
Qed.

Lemma verify_password_unfold `{!BcryptHandler} p h (w : World) :
  verify_password p h w = (pwd_context.verify p h, w).
Proof. reflexivity. Qed.

Lemma timegm_mono (a b : Z) : a ≤ b → jwt.timegm a ≤ jwt.timegm b.
Proof. intros Hab. unfold jwt.timegm. apply Z.div_le_mono; lia. Qed.

(** The payload of the tokens the program issues: the subject and the
    expiry as an integer date. *)
Lemma encode_sub_exp `{!Signer} (sub : value) (expire : Z) key alg :
  jwt.is_datetime sub = false →
  let payload := <["exp" := VInt (jwt.timegm expire)]> (<["sub" := sub]> ∅) in
  jwt.encode (<["exp" := VDatetime expire]> (<["sub" := sub]> ∅)) key alg
  = Return (JWS alg payload (sign alg key payload)).
Proof.
  intros Hsub payload. unfold jwt.encode. simpl.
  assert (Hconv :
    jwt.to_intdate "exp" (jwt.to_intdate "iat" (jwt.to_intdate "nbf"
      (<["exp" := VDatetime expire]> (<["sub" := sub]> ∅)))) = payload).
  { unfold jwt.to_intdate at 3. simplify_map_eq.
    unfold jwt.to_intdate at 2. simplify_map_eq.
    unfold jwt.to_intdate. simplify_map_eq.
    unfold payload. by rewrite insert_insert_eq. }
  rewrite Hconv. rewrite bool_decide_eq_true_2; [done|].
  unfold payload. apply map_Forall_insert_2; [done|].
  apply map_Forall_insert_2; [done|]. apply map_Forall_empty.
Qed.

Lemma create_access_token_sub `{!Signer} (email : string) (w : World) :
  let payload :=
    <["exp" := VInt (jwt.timegm
        (utcnow w + timedelta_minutes ACCESS_TOKEN_EXPIRE_MINUTES))]>
      (<["sub" := VStr email]> ∅) in
  create_access_token (<["sub" := VStr email]> ∅) None w
  = (Return (JWS ALGORITHM payload (sign ALGORITHM (SECRET_KEY w) payload)), w).
Proof.
  intros payload.
  unfold create_access_token, mbind, M_bind, datetime_utcnow, gets, lift.
  simpl. by rewrite encode_sub_exp.
Qed.

(** The three outcomes of the coercion of a time claim. *)
Lemma int_claim_outcomes `{!Builtins} claims k msg :
  (∃ n, jwt.int_claim claims k msg = Return n) ∨
  jwt.int_claim claims k msg = Raise (JWTError msg) ∨
  (∃ v, jwt.int_claim claims k msg = Raise (jwt.int_type_error v) ∧
        claims !! k = Some v ∧ jwt.int_of v = jwt.IntTypeError).
Proof.
  unfold jwt.int_claim. destruct (claims !! k) as [v|]; [|left; by eexists].
  destruct (jwt.int_of v) eqn:Hv;
    [left; by eexists|right; by left|right; right; by exists v].
Qed.

(** The validation of the claims succeeds, fails with a [JWTError], or lets
    through the [TypeError] of [int] on a time claim. *)
Lemma validate_claims_outcomes `{!Builtins} claims now :
  jwt.validate_claims claims now = Return () ∨
  (∃ msg, jwt.validate_claims claims now = Raise (JWTError msg)) ∨
  (∃ k v, jwt.validate_claims claims now = Raise (jwt.int_type_error v) ∧
          k ∈ ["iat"; "nbf"; "exp"] ∧ claims !! k = Some v ∧
          jwt.int_of v = jwt.IntTypeError).
Proof.
  unfold jwt.validate_claims, jwt.validate_iat, jwt.validate_nbf,
    jwt.validate_exp.
  destruct (int_claim_outcomes claims "iat"
              "Issued At claim (iat) must be an integer.")
    as [[iat ->]|[->|(v & -> & Hk & Hv)]]; simpl;
    [|right; left; by eexists
     |right; right; exists "iat", v; set_solver].
  destruct (int_claim_outcomes claims "nbf"
              "Not Before claim (nbf) must be an integer.")
    as [[nbf ->]|[->|(v & -> & Hk & Hv)]]; simpl;
    [|right; left; by eexists
     |right; right; exists "nbf", v; set_solver].
  assert (Hnbf :
    (match nbf with
     | Some nbf => if bool_decide (now < nbf)
                   then Raise (JWTError "The token is not yet valid (nbf)")
                   else Return ()
     | None => Return ()
     end) = Return () ∨
    (match nbf with
     | Some nbf => if bool_decide (now < nbf)
                   then Raise (JWTError "The token is not yet valid (nbf)")
                   else Return ()
     | None => Return ()
     end) = Raise (JWTError "The token is not yet valid (nbf)")).
  { destruct nbf as [nbf|]; [case_bool_decide|]; auto. }
  destruct Hnbf as [->| ->]; simpl; [|right; left; by eexists].
  destruct (int_claim_outcomes claims "exp"
              "Expiration Time claim (exp) must be an integer.")
    as [[exp ->]|[->|(v & -> & Hk & Hv)]]; simpl;
    [|right; left; by eexists
     |right; right; exists "exp", v; set_solver].
  assert (Hexp :
    (match exp with
     | Some exp => if bool_decide (exp < now)
                   then Raise (JWTError "Signature has expired.")
                   else Return ()
     | None => Return ()
     end) = Return () ∨
    (match exp with
     | Some exp => if bool_decide (exp < now)
                   then Raise (JWTError "Signature has expired.")
                   else Return ()
     | None => Return ()
     end) = Raise (JWTError "Signature has expired.")).
  { destruct exp as [exp|]; [case_bool_decide|]; auto. }
  destruct Hexp as [->| ->]; simpl; [|right; left; by eexists].
  unfold jwt.validate_aud, jwt.validate_sub, jwt.validate_jti,
    jwt.validate_at_hash.
  destruct (claims !! "aud") as [[| | | |]|]; simpl;
    try (right; left; by eexists).
  destruct (claims !! "sub") as [[| | | |]|]; simpl;
    try (right; left; by eexists);
    (destruct (claims !! "jti") as [[| | | |]|]; simpl;
       try (right; left; by eexists);
       (destruct (claims !! "at_hash"); simpl;
          [right; left; by eexists|by left])).
Qed.

(** The payloads the program issues pass the validation until they expire,
    and fail it as expired afterwards. *)
Lemma validate_claims_issued `{!Builtins} (sub : string) (exp now : Z) :
  jwt.validate_claims (<["exp" := VInt exp]> (<["sub" := VStr sub]> ∅)) now
  = if bool_decide (exp < now)
    then Raise (JWTError "Signature has expired.")
    else Return ().
Proof.
  unfold jwt.validate_claims, jwt.validate_iat, jwt.validate_nbf,
    jwt.validate_exp, jwt.int_claim, jwt.validate_aud, jwt.validate_sub,
    jwt.validate_jti, jwt.validate_at_hash.
  rewrite !lookup_insert_eq.
  repeat (rewrite lookup_insert_ne by done).
  rewrite !lookup_insert_eq. rewrite !lookup_empty. simpl.
  by case_bool_decide.
Qed.


(** The outcomes of [jwt.decode]: the payload, a [JWTError], or, for a
    token signed under the key with a time claim that [int] does not take,
    the [TypeError]; decoding reads the clock only. *)
Lemma decode_outcomes `{!Builtins} `{!Signer} tok key algs (w : World) :
  (∃ payload, jwt.decode tok key algs w = (Return payload, w)) ∨
  (∃ msg, jwt.decode tok key algs w = (Raise (JWTError msg), w)) ∨
  (∃ alg payload k v,
     jwt.decode tok key algs w = (Raise (jwt.int_type_error v), w) ∧
     tok = JWS alg payload (sign alg key payload) ∧ alg ∈ algs ∧
     k ∈ ["iat"; "nbf"; "exp"] ∧ payload !! k = Some v ∧
     jwt.int_of v = jwt.IntTypeError).
Proof.
  destruct tok as [alg payload signature|s]; simpl;
    [|right; left; by eexists].
  destruct (bool_decide (alg ∈ algs)) eqn:Halg; simpl;
    [|right; left; by eexists].
  destruct (bool_decide (signature = sign alg key payload)) eqn:Hsig; simpl;
    [|right; left; by eexists].
  apply bool_decide_eq_true_1 in Halg, Hsig. subst signature.
  unfold mbind, M_bind, datetime_utcnow, gets, lift, mret, M_ret.
  destruct (validate_claims_outcomes payload (jwt.timegm (utcnow w)))
    as [->|[[msg ->]|(k & v & -> & Hk & Hv & Hint)]].
  - left. by eexists.
  - right; left. by eexists.
  - right; right. by exists alg, payload, k, v.
Qed.

(** A token signed with the key, of an allowed algorithm, whose claims pass
    the validation decodes to its payload. *)
Lemma decode_signed `{!Builtins} `{!Signer} alg payload key algs (w : World) :
  alg ∈ algs →
  jwt.validate_claims payload (jwt.timegm (utcnow w)) = Return () →
  jwt.decode (JWS alg payload (sign alg key payload)) key algs w
  = (Return payload, w).
Proof.
  intros Halg Hvalid. simpl.
  rewrite (bool_decide_eq_true_2 _ Halg). simpl.
  rewrite bool_decide_eq_true_2 by done. simpl.
  unfold mbind, M_bind, datetime_utcnow, gets, lift, mret, M_ret.
  by rewrite Hvalid.
Qed.


(** ** Tokens *)

(** A token issued in [w1] decodes in [w2] under the same key until it
    expires. *)
Lemma issued_token_decodes `{!Builtins} `{!Signer} (email : string) (w1 w2 : World) :
  SECRET_KEY w2 = SECRET_KEY w1 →
  utcnow w2 ≤ utcnow w1 + timedelta_minutes ACCESS_TOKEN_EXPIRE_MINUTES →
  ∃ tok payload,
    create_access_token (<["sub" := VStr email]> ∅) None w1
      = (Return tok, w1) ∧
    jwt.decode tok (SECRET_KEY w2) [ALGORITHM] w2 = (Return payload, w2) ∧
    dict_get payload "sub" = VStr email.
Proof.
  intros Hkey Hnow.
  pose proof (create_access_token_sub email w1) as Hissue. cbv zeta in Hissue.
  set (exp := jwt.timegm
         (utcnow w1 + timedelta_minutes ACCESS_TOKEN_EXPIRE_MINUTES)) in *.
  set (payload := <["exp" := VInt exp]> (<["sub" := VStr email]> ∅)) in *.
  assert (Hlsub : payload !! "sub" = Some (VStr email)).
  { unfold payload. rewrite lookup_insert_ne by done. apply lookup_insert_eq. }
  exists (JWS ALGORITHM payload (sign ALGORITHM (SECRET_KEY w1) payload)),
    payload.
  split; [exact Hissue|]. split.
  - rewrite Hkey. apply decode_signed; [constructor|].
    unfold payload. rewrite validate_claims_issued.
    apply timegm_mono in Hnow. fold exp in Hnow.
    rewrite bool_decide_eq_false_2; [reflexivity|lia].
  - unfold dict_get. by rewrite Hlsub.
Qed.


Lemma get_current_user_decoded `{!Builtins} `{!Signer} tok (w : World) payload :
  jwt.decode tok (SECRET_KEY w) [ALGORITHM] w = (Return payload, w) →
  get_current_user tok w =
    if bool_decide (dict_get payload "sub" = VNone)
    then (Raise credentials_exception, w)
    else
      (users ← get_documents "agencyuser"
                 (<["email" := dict_get payload "sub"]> ∅) (Some 1%nat);
       match users with
       | [] => raise credentials_exception
       | user :: _ => mret user
       end) w.
Proof.
  intros Hdecode. unfold get_current_user.
  destruct (bool_decide (dict_get payload "sub" = VNone)) eqn:Hsub.
  - erewrite (bind_Raise (try_except _ _ _)); [reflexivity|].
    eapply try_except_passed; [|reflexivity].
    unfold mbind at 1, M_bind at 1, gets. cbv beta iota.
    erewrite bind_Return; [|exact Hdecode]. by rewrite Hsub.
  - erewrite (bind_Return (try_except _ _ _)); [reflexivity|].
    apply try_except_Return.
    unfold mbind at 1, M_bind at 1, gets. cbv beta iota.
    erewrite bind_Return; [|exact Hdecode]. by rewrite Hsub.
Qed.


(** C2: a token issued for an email by [create_access_token({"sub": email})]
    and decoded with the same secret key no later than 24 hours after it was
    issued (in particular immediately) verifies, and its subject claim is
    that email: [get_current_user] goes on to look that email up. *)
Theorem token_round_trip `{!Builtins} `{!Signer} (email : string) (w1 w2 : World) :
  SECRET_KEY w2 = SECRET_KEY w1 →
  utcnow w2 ≤ utcnow w1 + timedelta_minutes ACCESS_TOKEN_EXPIRE_MINUTES →
  ∃ tok payload,
    create_access_token (<["sub" := VStr email]> ∅) None w1
      = (Return tok, w1) ∧
    jwt.decode tok (SECRET_KEY w2) [ALGORITHM] w2 = (Return payload, w2) ∧
    dict_get payload "sub" = VStr email ∧
    get_current_user tok w2 =
      (users ← get_documents "agencyuser" (<["email" := VStr email]> ∅)
                 (Some 1%nat);
       match users with
       | [] => raise credentials_exception
       | user :: _ => mret user
       end) w2.
Proof.
  intros Hkey Hnow.
  destruct (issued_token_decodes email w1 w2 Hkey Hnow)
    as (tok & payload & Hissue & Hdecode & Hsub).
  exists tok, payload.
  split; [exact Hissue|]. split; [exact Hdecode|]. split; [exact Hsub|].
  rewrite (get_current_user_decoded _ _ _ Hdecode), Hsub. reflexivity.
Qed.

(** ** Authentication *)

(** C6: when the token verifies and its subject is absent, or its subject is
    the email of no user in the store, [get_current_user] fails with the 401
    [credentials_exception]: unauthenticated, not a server error. *)
Theorem current_user_unauthenticated `{!Builtins} `{!Signer} (tok : token) (w : World)
    (payload : gmap string value) :
  jwt.decode tok (SECRET_KEY w) [ALGORITHM] w = (Return payload, w) →
  payload !! "sub" = None ∨
    get_documents "agencyuser" (<["email" := dict_get payload "sub"]> ∅)
      (Some 1%nat) w = (Return [], w) →
  get_current_user tok w
    = (Raise (HTTPException 401 "Could not validate credentials"), w) ∧
  status_of (get_current_user tok w).1 = 401.
Proof.
  intros Hdecode Hcase.
  assert (Hgoal : get_current_user tok w = (Raise credentials_exception, w)).
  { rewrite (get_current_user_decoded _ _ _ Hdecode).
    destruct Hcase as [Habsent|Hnone].
    - unfold dict_get. rewrite Habsent. reflexivity.
    - case_bool_decide; [reflexivity|].
      erewrite bind_Return; [|exact Hnone]. reflexivity. }
  rewrite Hgoal. split; reflexivity.
Qed.



(** C4: [login] fails with the same exception, [HTTPException] with status
    400 and detail ["Invalid credentials"], when no user has the email and
    when a user has it but the password does not verify against the stored
    hash: the two failures cannot be told apart. *)
Theorem login_failures_alike `{!BcryptHandler} `{!Signer}
    (absent present : AuthIn.t) (w1 w2 : World)
    (user : gmap string value) (others : list (gmap string value)) :
  get_documents "agencyuser" (<["email" := VStr (AuthIn.email absent)]> ∅)
    (Some 1%nat) w1 = (Return [], w1) →
  get_documents "agencyuser" (<["email" := VStr (AuthIn.email present)]> ∅)
    (Some 1%nat) w2 = (Return (user :: others), w2) →
  pwd_context.verify (AuthIn.password present)
    (dict_get_default user "password_hash" (VStr "")) = Return false →
  login absent w1 = (Raise (HTTPException 400 "Invalid credentials"), w1) ∧
  login present w2 = (Raise (HTTPException 400 "Invalid credentials"), w2) ∧
  (login absent w1).1 = (login present w2).1 ∧
  status_of (login absent w1).1 = 400 ∧
  status_of (login present w2).1 = 400.
Proof.
  intros Habsent Hpresent Hverify.
  assert (H1 : login absent w1
               = (Raise (HTTPException 400 "Invalid credentials"), w1)).
  { unfold login. erewrite bind_Return; [|exact Habsent]. reflexivity. }
  assert (H2 : login present w2
               = (Raise (HTTPException 400 "Invalid credentials"), w2)).
  { unfold login. erewrite bind_Return; [|exact Hpresent].
    cbv beta iota. erewrite bind_Return;
      [|rewrite verify_password_unfold, Hverify; reflexivity].
    reflexivity. }
  rewrite H1, H2. repeat split; reflexivity.
Qed.

(** ** Registration *)

Lemma split_local_part (loc dom : string) :
  str_contains "@" loc = false →
  split "@" (loc +:+ String "@" dom) = loc :: split "@" dom.
Proof.
  induction loc as [|c loc IH]; simpl; intros Hloc.
  - reflexivity.
  - apply orb_false_iff in Hloc as [Hc Hloc].
    rewrite Hc, (IH Hloc). reflexivity.
Qed.

Lemma get_password_hash_run `{!BcryptHandler} password (w : World) :
  get_password_hash password w
  = (bcrypt_hash (entropy w (drawn w)) password, set_drawn (S (drawn w)) w).
Proof. reflexivity. Qed.

Lemma create_document_run collection_name data (w : World) :
  outage (store w) = None →
  create_document collection_name data w
  = (Return (),
     set_store
       {| collections :=
            <[collection_name :=
                default [] (collections (store w) !! collection_name)
                  ++ [data]]> (collections (store w));
          outage := None |} w).
Proof.
  intros Hup. unfold create_document, mbind, M_bind, get, put. simpl.
  by rewrite Hup.
Qed.

(** A document just written is found by a filter it satisfies. *)
Lemma get_documents_after_create collection_name data flt (w : World) docs :
  map_Forall (λ k v, data !! k = Some v) flt →
  ∃ found others,
    get_documents collection_name flt (Some 1%nat)
      (set_store
         {| collections :=
              <[collection_name := docs ++ [data]]> (collections (store w));
            outage := None |} w)
    = (Return (found :: others),
       set_store
         {| collections :=
              <[collection_name := docs ++ [data]]> (collections (store w));
            outage := None |} w).
Proof.
  intros Hmatch.
  unfold get_documents, mbind, M_bind, get, mret, M_ret. simpl.
  rewrite lookup_insert_eq. simpl. rewrite filter_app.
  rewrite filter_cons_True by done. rewrite filter_nil.
  destruct (filter _ docs) as [|d ds]; simpl; by eexists _, _.
Qed.

Lemma register_taken `{!BcryptHandler} `{!Signer} payload (w : World)
    user others :
  get_documents "agencyuser" (<["email" := VStr (AuthIn.email payload)]> ∅)
    (Some 1%nat) w = (Return (user :: others), w) →
  register payload w
  = (Raise (HTTPException 400 "Email already registered"), w).
Proof.
  intros Hfound. unfold register.
  erewrite bind_Return; [|exact Hfound]. reflexivity.
Qed.

Lemma register_free `{!BcryptHandler} `{!Signer} payload (w : World)
    password_hash :
  get_documents "agencyuser" (<["email" := VStr (AuthIn.email payload)]> ∅)
    (Some 1%nat) w = (Return [], w) →
  bcrypt_hash (entropy w (drawn w)) (AuthIn.password payload)
    = Return password_hash →
  ∃ tok,
    register payload w
    = (Return (Token.new tok),
       registered (AuthIn.email payload) password_hash w) ∧
    create_access_token (<["sub" := VStr (AuthIn.email payload)]> ∅) None
      (registered (AuthIn.email payload) password_hash w)
    = (Return tok, registered (AuthIn.email payload) password_hash w).
Proof.
  intros Hfree Hhash.
  destruct (get_documents_Return _ _ _ _ _ _ Hfree) as [_ Hup].
  set (w' := registered (AuthIn.email payload) password_hash w).
  pose proof (create_access_token_sub (AuthIn.email payload) w') as Hissue.
  cbv zeta in Hissue. eexists. split; [|exact Hissue].
  unfold register.
  erewrite bind_Return; [|exact Hfree]. cbv beta iota. unfold truthy.
  erewrite bind_Return; [|rewrite get_password_hash_run, Hhash; reflexivity].
  erewrite bind_Return; [|apply create_document_run; exact Hup].
  erewrite bind_Return; [|exact Hissue]. reflexivity.
Qed.

Lemma expiry_window_nonneg :
  0 ≤ timedelta_minutes ACCESS_TOKEN_EXPIRE_MINUTES.
Proof. unfold timedelta_minutes, ACCESS_TOKEN_EXPIRE_MINUTES. lia. Qed.

Lemma register_again `{!BcryptHandler} `{!Signer} email password_hash
    password' (w : World) :
  register (AuthIn.mk email password') (registered email password_hash w)
  = (Raise (HTTPException 400 "Email already registered"),
     registered email password_hash w).
Proof.
  destruct (get_documents_after_create "agencyuser"
              (user_document email password_hash)
              (<["email" := VStr email]> ∅)
              (set_drawn (S (drawn w)) w)
              (default [] (collections (store w) !! "agencyuser")))
    as (found & others & Hfound).
  { apply map_Forall_insert_2; [apply lookup_insert_eq|apply map_Forall_empty]. }
  exact (register_taken (AuthIn.mk email password') _ found others Hfound).
Qed.

(** C1: [register] looks the email up.  If a user with it is in the store it
    fails with [HTTPException] 400 "Email already registered" and leaves the
    state as it was.  Otherwise it hashes the password and, when the hasher
    returns a hash, appends exactly one document, [email], [password_hash] and
    [name] (the part of the email before the first "@"), to [agencyuser],
    touches no other collection, and returns a bearer token that decodes to
    the subject [email]; registering the same email again, with any
    password, then fails with the same 400.  Failures of the store and of the
    hasher propagate. *)
Theorem register_spec `{!BcryptHandler} `{!Builtins} `{!Signer}
    (payload : AuthIn.t) (w : World) :
  let email := AuthIn.email payload in
  match get_documents "agencyuser" (<["email" := VStr email]> ∅)
          (Some 1%nat) w with
  | (Return (_ :: _), _) =>
      register payload w
      = (Raise (HTTPException 400 "Email already registered"), w) ∧
      status_of (register payload w).1 = 400
  | (Return [], _) =>
      match bcrypt_hash (entropy w (drawn w)) (AuthIn.password payload) with
      | Return password_hash =>
          let w' := registered email password_hash w in
          let document :=
            <["email" := VStr email]>
              (<["password_hash" := VStr password_hash]>
                 (<["name" := VStr (local_part email)]> ∅)) in
          ∃ tok claims,
            register payload w = (Return (Token.new tok), w') ∧
            collections (store w') !! "agencyuser"
              = Some (default [] (collections (store w) !! "agencyuser")
                        ++ [document]) ∧
            (∀ c, c ≠ "agencyuser" →
               collections (store w') !! c = collections (store w) !! c) ∧
            jwt.decode tok (SECRET_KEY w') [ALGORITHM] w'
              = (Return claims, w') ∧
            dict_get claims "sub" = VStr email ∧
            ∀ password',
              register (AuthIn.mk email password') w'
              = (Raise (HTTPException 400 "Email already registered"), w')
      | Raise e => register payload w = (Raise e, set_drawn (S (drawn w)) w)
      end
  | (Raise e, _) => register payload w = (Raise e, w)
  end ∧
  ∀ loc dom,
    email = loc +:+ String "@" dom → str_contains "@" loc = false →
    local_part email = loc.
Proof.
  intros email. split.
  - destruct (get_documents "agencyuser" (<["email" := VStr email]> ∅)
                (Some 1%nat) w) as [[[|user others]|e] w0] eqn:Hlookup.
    + pose proof (get_documents_reads_only "agencyuser"
                    (<["email" := VStr email]> ∅) (Some 1%nat) w) as Hw.
      rewrite Hlookup in Hw. simpl in Hw. subst w0.
      destruct (bcrypt_hash _ _) as [password_hash|e] eqn:Hhash.
      * destruct (register_free payload w password_hash Hlookup Hhash)
          as (tok & Hreg & Hissue).
        fold email in Hreg, Hissue.
        set (w' := registered email password_hash w) in *.
        destruct (issued_token_decodes email w' w' eq_refl)
          as (tok' & claims & Hissue' & Hdecode & Hsub).
        { pose proof expiry_window_nonneg. lia. }
        rewrite Hissue in Hissue'. injection Hissue' as <-.
        exists tok, claims. split; [exact Hreg|].
        split; [apply lookup_insert_eq|].
        split; [intros c Hc; by apply lookup_insert_ne|].
        split; [exact Hdecode|]. split; [exact Hsub|].
        intros password'. apply register_again.
      * unfold register. erewrite bind_Return; [|exact Hlookup].
        cbv beta iota. unfold truthy.
        erewrite bind_Raise; [reflexivity|].
        rewrite get_password_hash_run, Hhash. reflexivity.
    + pose proof (get_documents_reads_only "agencyuser"
                    (<["email" := VStr email]> ∅) (Some 1%nat) w) as Hw.
      rewrite Hlookup in Hw. simpl in Hw. subst w0.
      rewrite (register_taken payload w user others Hlookup).
      split; reflexivity.
    + pose proof (get_documents_reads_only "agencyuser"
                    (<["email" := VStr email]> ∅) (Some 1%nat) w) as Hw.
      rewrite Hlookup in Hw. simpl in Hw. subst w0.
      unfold register. erewrite bind_Raise; [reflexivity|exact Hlookup].
  - intros loc dom Hemail Hloc. unfold local_part.
    rewrite Hemail, (split_local_part _ _ Hloc). reflexivity.
Qed.

(** ** [/test] *)

Lemma slice_to_length (n : nat) (s : string) :
  (len (slice_to n s) ≤ n)%nat.
Proof.
  revert n. induction s as [|c s IH]; intros n; simpl; [lia|].
  destruct (is_continuation c) eqn:Hc; simpl.
  - rewrite Hc. apply IH.
  - destruct n as [|n]; simpl; [lia|]. rewrite Hc. specialize (IH n). lia.
Qed.

Lemma slice_to_prefix (n : nat) (s : string) :
  startswith (slice_to n s) s = true.
Proof.
  revert n. induction s as [|c s IH]; intros n; simpl; [done|].
  destruct (is_continuation c); simpl.
  - rewrite bool_decide_eq_true_2 by done. apply IH.
  - destruct n as [|n]; simpl; [done|].
    rewrite bool_decide_eq_true_2 by done. apply IH.
Qed.

Lemma slice_to_short (n : nat) (s : string) :
  (len s ≤ n)%nat → slice_to n s = s.
Proof.
  revert n. induction s as [|c s IH]; intros n; simpl; [done|].
  destruct (is_continuation c); simpl; intros Hlen.
  - by rewrite IH.
  - destruct n as [|n]; [lia|]. rewrite IH by lia. reflexivity.
Qed.

(** [s[:n]] cuts [s] after its first [n] code points: the part kept holds
    [min n (len s)] code points and the rest starts at a code point. *)
Lemma slice_to_cut (n : nat) (s : string) :
  ∃ rest,
    s = slice_to n s +:+ rest ∧
    len (slice_to n s) = Nat.min n (len s) ∧
    match rest with
    | String c _ => is_continuation c = false
    | EmptyString => True
    end.
Proof.
  revert n. induction s as [|c s IH]; intros n; simpl.
  - exists EmptyString. repeat split. lia.
  - destruct (is_continuation c) eqn:Hc.
    + destruct (IH n) as (rest & Hs & Hlen & Hrest).
      exists rest. simpl. rewrite Hc. simpl.
      split; [|split; [exact Hlen|exact Hrest]].
      change (String c s = String c (slice_to n s +:+ rest)).
      by rewrite <- Hs.
    + destruct n as [|n].
      * exists (String c s). simpl. by rewrite Hc.
      * destruct (IH n) as (rest & Hs & Hlen & Hrest).
        exists rest. simpl. rewrite Hc. simpl.
        split; [|split; [lia|exact Hrest]].
        change (String c s = String c (slice_to n s +:+ rest)).
        by rewrite <- Hs.
Qed.

(** The status [test_database] reports for the store. *)
Lemma test_database_run (w : World) :
  ∃ response,
    test_database w = (Return response, w) ∧
    Response.backend response = "✅ Running" ∧
    match db w with
    | None =>
        Response.database response = "⚠️  Available but not initialized" ∧
        Response.connection_status response = "Not Connected" ∧
        Response.collections response = []
    | Some d =>
        match db_name d, db_list_collection_names d with
        | AttrRaises e, _ =>
            Response.database response
              = "❌ Error: " +:+ slice_to 50 (str e) ∧
            Response.connection_status response = "Not Connected" ∧
            Response.collections response = []
        | _, Raise e =>
            Response.database response
              = "⚠️  Connected but Error: " +:+ slice_to 50 (str e) ∧
            Response.connection_status response = "Connected" ∧
            Response.collections response = []
        | _, Return names =>
            Response.database response = "✅ Connected & Working" ∧
            Response.connection_status response = "Connected" ∧
            Response.collections response = take 10 names
        end
    end.
Proof.
  unfold test_database, test_database_body.
  unfold mbind at 1, M_bind at 1, get, lift. cbv beta iota.
  destruct (db w) as [d|].
  - unfold hasattr_name, getattr_name.
    destruct (db_name d) as [|name|e],
      (db_list_collection_names d) as [names|e'];
      eexists; (split; [reflexivity|]); simpl; done.
  - eexists; (split; [reflexivity|]); simpl; done.
Qed.

(** C7: [test_database] never raises.  Whatever the store handle is, absent,
    working, or raising from [db.name] or from [list_collection_names()], the
    handler returns a response and leaves the state as it was; a failure of
    the store is reported in the [database] field of the response. *)
Theorem test_database_never_raises (w : World) :
  ∃ response,
    test_database w = (Return response, w) ∧
    status_of (test_database w).1 = 200 ∧
    match db w with
    | None =>
        Response.database response = "⚠️  Available but not initialized"
    | Some d =>
        match db_name d, db_list_collection_names d with
        | AttrRaises e, _ =>
            Response.database response
              = "❌ Error: " +:+ slice_to 50 (str e)
        | _, Raise e =>
            Response.database response
              = "⚠️  Connected but Error: " +:+ slice_to 50 (str e)
        | _, Return names =>
            Response.database response = "✅ Connected & Working"
        end
    end.
Proof.
  destruct (test_database_run w) as (response & Hrun & _ & Hstatus).
  exists response. split; [exact Hrun|]. split; [by rewrite Hrun|].
  destruct (db w) as [d|]; [|by destruct Hstatus].
  destruct (db_name d), (db_list_collection_names d); by destruct Hstatus.
Qed.

(** C10: the response of [test_database] is bounded: [collections] holds at
    most 10 names, the first names [list_collection_names()] returned, and
    the text of a caught exception appears in the [database] status cut
    after its first 50 characters: what follows the prefix is the start of
    the text, holds 50 code points, or all of them when the text is
    shorter, and stops at the boundary of a code point. *)
Theorem test_database_bounded (w : World) :
  ∃ response,
    test_database w = (Return response, w) ∧
    (length (Response.collections response) ≤ 10)%nat ∧
    match db w with
    | None => Response.collections response = []
    | Some d =>
        match db_name d, db_list_collection_names d with
        | AttrRaises e, _ =>
            ∃ text rest,
              Response.database response = "❌ Error: " +:+ text ∧
              str e = text +:+ rest ∧
              len text = Nat.min 50 (len (str e)) ∧
              match rest with
              | String c _ => is_continuation c = false
              | EmptyString => True
              end
        | _, Raise e =>
            ∃ text rest,
              Response.database response
                = "⚠️  Connected but Error: " +:+ text ∧
              str e = text +:+ rest ∧
              len text = Nat.min 50 (len (str e)) ∧
              match rest with
              | String c _ => is_continuation c = false
              | EmptyString => True
              end
        | _, Return names =>
            Response.collections response = take 10 names ∧
            Response.collections response `prefix_of` names
        end
    end.
Proof.
  destruct (test_database_run w) as (response & Hrun & _ & Hstatus).
  exists response. split; [exact Hrun|].
  assert (Htext : ∀ e, ∀ head : string,
    Response.database response = head +:+ slice_to 50 (str e) →
    ∃ text rest,
      Response.database response = head +:+ text ∧
      str e = text +:+ rest ∧
      len text = Nat.min 50 (len (str e)) ∧
      match rest with
      | String c _ => is_continuation c = false
      | EmptyString => True
      end).
  { intros e head Hdb.
    destruct (slice_to_cut 50 (str e)) as (rest & Hcut & Hlen & Hrest).
    exists (slice_to 50 (str e)), rest. by repeat split. }
  destruct (db w) as [d|].
  - destruct (db_name d), (db_list_collection_names d) as [names|e'];
      destruct Hstatus as (Hdb & _ & Hcoll); rewrite Hcoll;
      (split; [first [rewrite length_take; lia | simpl; lia]|]);
      first [ by apply Htext
            | split; [reflexivity|apply prefix_take] ].
  - destruct Hstatus as (_ & _ & Hcoll). rewrite Hcoll. split; [simpl; lia|done].
Qed.

(** ** Password verification *)

Lemma verify_password_reads_only `{!BcryptHandler} plain hashed (w : World) :
  (verify_password plain hashed w).2 = w.
Proof. reflexivity. Qed.

(** A hash string that the bcrypt scheme does not identify makes
    [verify_password] raise, whatever the bcrypt handler is. *)
Lemma verify_password_unidentified `{!BcryptHandler} plain hashed (w : World) :
  pwd_context.identify hashed = false →
  verify_password plain (VStr hashed) w = (Raise UnknownHashError, w).
Proof.
  intros Hident. rewrite verify_password_unfold. simpl. by rewrite Hident.
Qed.

(** X16: [login] calls [verify_password] unguarded: for a stored record without
    a [password_hash] field the empty string is verified, and the
    [UnknownHashError] reaches the framework. *)
Lemma login_missing_hash `{!BcryptHandler} `{!Signer} payload (w : World)
    user others :
  get_documents "agencyuser" (<["email" := VStr (AuthIn.email payload)]> ∅)
    (Some 1%nat) w = (Return (user :: others), w) →
  user !! "password_hash" = None →
  login payload w = (Raise UnknownHashError, w) ∧
  status_of (login payload w).1 = 500.
Proof.
  intros Hfound Hmissing.
  assert (Hlogin : login payload w = (Raise UnknownHashError, w)).
  { unfold login. erewrite bind_Return; [|exact Hfound]. cbv beta iota.
    erewrite bind_Raise; [reflexivity|].
    unfold dict_get_default. rewrite Hmissing. simpl.
    by apply verify_password_unidentified. }
  rewrite Hlogin. split; reflexivity.
Qed.

(** C3: a defect of the code.  [verify_password] is not total: on the empty
    hash string, the default that [login] passes for a record without
    [password_hash], it raises [UnknownHashError] and returns no boolean, so
    that login ends in a 500; on [None], for a record whose [password_hash]
    is [None], the same call returns false and the login gets the 400 that
    the default was meant to give. *)
Theorem verify_password_empty_hash_raises :
  @verify_password fake_bcrypt "pw" (VStr "") world0
    = (Raise UnknownHashError, world0) ∧
  (∀ b : bool,
     @verify_password fake_bcrypt "pw" (VStr "") world0 ≠ (Return b, world0)) ∧
  @login fake_bcrypt fake_signer (AuthIn.mk "bob@example.com" "pw") world_bob
    = (Raise UnknownHashError, world_bob) ∧
  status_of (@login fake_bcrypt fake_signer
               (AuthIn.mk "bob@example.com" "pw") world_bob).1 = 500 ∧
  @verify_password fake_bcrypt "pw" VNone world0 = (Return false, world0) ∧
  @login fake_bcrypt fake_signer (AuthIn.mk "bob@example.com" "pw")
    world_bob_null
    = (Raise (HTTPException 400 "Invalid credentials"), world_bob_null).
Proof.
  split; [reflexivity|]. split; [intros b; discriminate|].
  split; [vm_compute; reflexivity|]. split; [vm_compute; reflexivity|].
  split; [reflexivity|]. vm_compute. reflexivity.
Qed.

(** ** Runs on concrete inputs *)

Example register_alice :
  @register fake_bcrypt fake_signer alice world0
  = (Return (Token.new alice_token), world_alice).
Proof. vm_compute. reflexivity. Qed.

Example register_alice_twice :
  @register fake_bcrypt fake_signer alice world_alice
  = (Raise (HTTPException 400 "Email already registered"), world_alice).
Proof. vm_compute. reflexivity. Qed.

Example login_alice :
  @login fake_bcrypt fake_signer alice world_alice
  = (Return (Token.new alice_token), world_alice).
Proof. vm_compute. reflexivity. Qed.

Example me_alice :
  @me_route fake_builtins fake_signer alice_token world_alice
  = (Return (<["email" := VStr "alice@example.com"]>
               (<["name" := VStr "alice"]> ∅)), world_alice).
Proof. vm_compute. reflexivity. Qed.

Example string_exp_accepted :
  @get_current_user fake_builtins fake_signer string_exp_token world_alice
  = (Return (user_document "alice@example.com" alice_hash), world_alice).
Proof. vm_compute. reflexivity. Qed.

Example null_exp_is_a_type_error :
  @get_current_user fake_builtins fake_signer null_exp_token world_alice
  = (Raise (jwt.int_type_error VNone), world_alice).
Proof. vm_compute. reflexivity. Qed.

Example future_nbf_and_audience_refused :
  @get_current_user fake_builtins fake_signer future_nbf_token world_alice
    = (Raise credentials_exception, world_alice) ∧
  @get_current_user fake_builtins fake_signer audience_token world_alice
    = (Raise credentials_exception, world_alice).
Proof. split; vm_compute; reflexivity. Qed.

Example slices_count_code_points :
  len "✅ Running" = 9%nat ∧
  slice_to 2 "ééé" = "éé" ∧
  slice_to 50 "short" = "short" ∧
  slice_to 0 "abc" = "".
Proof. repeat split. Qed.

Example login_bob_without_hash :
  @login fake_bcrypt fake_signer (AuthIn.mk "bob@example.com" "pw") world_bob
  = (Raise UnknownHashError, world_bob).
Proof. vm_compute. reflexivity. Qed.

Example local_part_examples :
  local_part "alice@example.com" = "alice" ∧
  local_part "a@b@c" = "a" ∧
  local_part "@example.com" = "".
Proof. repeat split. Qed.

(** ** Witnesses *)

Lemma token_round_trip_witness :
  ∃ tok payload,
    @create_access_token fake_signer
      (<["sub" := VStr "alice@example.com"]> ∅) None world0
      = (Return tok, world0) ∧
    @jwt.decode fake_builtins fake_signer tok (SECRET_KEY world0) [ALGORITHM] world0
      = (Return payload, world0) ∧
    dict_get payload "sub" = VStr "alice@example.com" ∧
    @get_current_user fake_builtins fake_signer tok world0 =
      (users ← get_documents "agencyuser"
                 (<["email" := VStr "alice@example.com"]> ∅) (Some 1%nat);
       match users with
       | [] => raise credentials_exception
       | user :: _ => mret user
       end) world0.
Proof.
  apply (@token_round_trip fake_builtins fake_signer "alice@example.com" world0 world0).
  - reflexivity.
  - vm_compute. discriminate.
Defined.

Lemma current_user_unauthenticated_witness :
  @get_current_user fake_builtins fake_signer alice_token world0
    = (Raise (HTTPException 401 "Could not validate credentials"), world0) ∧
  status_of (@get_current_user fake_builtins fake_signer alice_token world0).1 = 401.
Proof.
  apply (@current_user_unauthenticated fake_builtins fake_signer alice_token world0
           alice_claims).
  - vm_compute. reflexivity.
  - right. vm_compute. reflexivity.
Defined.

Lemma login_failures_alike_witness :
  @login fake_bcrypt fake_signer alice world0
    = (Raise (HTTPException 400 "Invalid credentials"), world0) ∧
  @login fake_bcrypt fake_signer (AuthIn.mk "alice@example.com" "bad")
    world_alice
    = (Raise (HTTPException 400 "Invalid credentials"), world_alice) ∧
  (@login fake_bcrypt fake_signer alice world0).1
    = (@login fake_bcrypt fake_signer (AuthIn.mk "alice@example.com" "bad")
         world_alice).1 ∧
  status_of (@login fake_bcrypt fake_signer alice world0).1 = 400 ∧
  status_of (@login fake_bcrypt fake_signer
               (AuthIn.mk "alice@example.com" "bad") world_alice).1 = 400.
Proof.
  apply (@login_failures_alike fake_bcrypt fake_signer alice
           (AuthIn.mk "alice@example.com" "bad") world0 world_alice
           (user_document "alice@example.com" alice_hash) []).
  - vm_compute. reflexivity.
  - vm_compute. reflexivity.
  - vm_compute. reflexivity.
Defined.

(** * Further properties of the handlers *)

(** ** Contact *)

(** X1: [contact] either acknowledges and appends the dumped message, and nothing
    else, to [contactmessage], or, when the store fails, raises
    [HTTPException] 500 carrying the text of the failure and writes nothing;
    no other exception leaves the handler. *)
Theorem contact_spec (message : ContactIn.t) (w : World) :
  match outage (store w) with
  | None =>
      let document :=
        <["name" := VStr (ContactIn.name message)]>
          (<["email" := VStr (ContactIn.email message)]>
             (<["message" := VStr (ContactIn.message message)]> ∅)) in
      ∃ w',
        contact message w
        = (Return (<["ok" := VBool true]> (<["received" := VBool true]> ∅)),
           w') ∧
        collections (store w') !! "contactmessage"
          = Some (default [] (collections (store w) !! "contactmessage")
                    ++ [document]) ∧
        (∀ c, c ≠ "contactmessage" →
           collections (store w') !! c = collections (store w) !! c) ∧
        outage (store w') = None
  | Some msg =>
      contact message w = (Raise (HTTPException 500 msg), w) ∧
      status_of (contact message w).1 = 500
  end.
Proof.
  destruct (outage (store w)) as [msg|] eqn:Hout.
  - assert (Hrun : contact message w = (Raise (HTTPException 500 msg), w)).
    { unfold contact.
      rewrite (try_except_caught _ _ _ _ (Exception msg) w); [reflexivity| |reflexivity].
      erewrite bind_Raise; [reflexivity|].
      unfold create_document, mbind, M_bind, get, raise. simpl.
      by rewrite Hout. }
    rewrite Hrun. split; reflexivity.
  - eexists. split; [|split; [|split]].
    + unfold contact. apply try_except_Return.
      erewrite bind_Return; [reflexivity|].
      apply create_document_run, Hout.
    + apply lookup_insert_eq.
    + intros c Hc. simpl. by apply lookup_insert_ne.
    + reflexivity.
Qed.

(** ** Handlers that only read *)

Lemma bind_reads_only {S A B} (m : M S A) (f : A → M S B) :
  (∀ s, (m s).2 = s) → (∀ a s, (f a s).2 = s) → ∀ s, ((m ≫= f) s).2 = s.
Proof.
  intros Hm Hf s. unfold mbind, M_bind. specialize (Hm s).
  destruct (m s) as [[a|e] s']; simpl in *; subst s'; [apply Hf|done].
Qed.

Lemma try_except_reads_only {S A} (body : M S A) class handler :
  (∀ s, (body s).2 = s) → (∀ e s, (handler e s).2 = s) →
  ∀ s, (try_except body class handler s).2 = s.
Proof.
  intros Hb Hh s. unfold try_except. specialize (Hb s).
  destruct (body s) as [[a|e] s']; simpl in *; subst s'; [done|].
  destruct (class e); [apply Hh|done].
Qed.

Lemma create_access_token_reads_only `{!Signer} data delta (w : World) :
  (create_access_token data delta w).2 = w.
Proof. reflexivity. Qed.

Lemma decode_reads_only `{!Builtins} `{!Signer} tok key algs (w : World) :
  (jwt.decode tok key algs w).2 = w.
Proof.
  destruct (decode_outcomes tok key algs w)
    as [[p Hp]|[[msg Hp]|(alg & p & k & v & Hp & _)]]; by rewrite Hp.
Qed.

Lemma get_current_user_reads_only `{!Builtins} `{!Signer} tok (w : World) :
  (get_current_user tok w).2 = w.
Proof.
  revert w. unfold get_current_user. apply bind_reads_only.
  - apply try_except_reads_only; [|done].
    apply bind_reads_only; [done|]. intros key.
    apply bind_reads_only; [intros s; apply decode_reads_only|].
    intros payload s. by case_bool_decide.
  - intros email. apply bind_reads_only.
    + intros s. apply get_documents_reads_only.
    + by intros [|user users] s.
Qed.

(** X2: [login], [get_current_user] and the [/me] route never change the state
    of the process, whatever they return or raise: only [register] and
    [contact] write. *)
Theorem readers_leave_state `{!BcryptHandler} `{!Builtins} `{!Signer}
    (payload : AuthIn.t) (tok : token) (w : World) :
  (login payload w).2 = w ∧
  (get_current_user tok w).2 = w ∧
  (me_route tok w).2 = w.
Proof.
  split; [|split].
  - revert w. unfold login. apply bind_reads_only.
    + intros s. apply get_documents_reads_only.
    + intros [|user users]; [done|]. apply bind_reads_only; [done|].
      intros [|]; simpl; [|done].
      apply bind_reads_only; [|done].
      intros s. apply create_access_token_reads_only.
  - apply get_current_user_reads_only.
  - revert w. unfold me_route. apply bind_reads_only; [|done].
    intros s. apply get_current_user_reads_only.
Qed.

(** ** Login, and registration followed by login and by [/me] *)

Lemma get_documents_found c flt n (w w' : World) found :
  get_documents c flt (Some n) w = (Return found, w') →
  found = take n (filter (λ d : gmap string value,
                            map_Forall (λ k v, d !! k = Some v) flt)
                    (default [] (collections (store w) !! c))).
Proof.
  unfold get_documents, mbind, M_bind, get, raise, mret, M_ret. simpl.
  destruct (outage (store w)); [discriminate|]. congruence.
Qed.

Lemma lookup_after_register email password_hash (w : World) :
  get_documents "agencyuser" (<["email" := VStr email]> ∅) (Some 1%nat) w
    = (Return [], w) →
  get_documents "agencyuser" (<["email" := VStr email]> ∅) (Some 1%nat)
    (registered email password_hash w)
  = (Return [user_document email password_hash],
     registered email password_hash w).
Proof.
  intros Hfree. pose proof (get_documents_found _ _ _ _ _ _ Hfree) as Hnone.
  assert (Hold :
    filter (λ d : gmap string value,
              map_Forall (λ k v, d !! k = Some v) (<["email" := VStr email]> ∅))
      (default [] (collections (store w) !! "agencyuser")) = []).
  { destruct (filter _ _); [done|discriminate]. }
  unfold get_documents, mbind, M_bind, get, mret, M_ret. simpl.
  rewrite lookup_insert_eq. simpl. rewrite filter_app, Hold.
  rewrite filter_cons_True; [reflexivity|].
  apply map_Forall_insert_2; [apply lookup_insert_eq|apply map_Forall_empty].
Qed.

Lemma login_verified `{!BcryptHandler} `{!Builtins} `{!Signer} payload (w : World)
    user others :
  get_documents "agencyuser" (<["email" := VStr (AuthIn.email payload)]> ∅)
    (Some 1%nat) w = (Return (user :: others), w) →
  pwd_context.verify (AuthIn.password payload)
    (dict_get_default user "password_hash" (VStr "")) = Return true →
  ∃ tok claims,
    login payload w = (Return (Token.mk tok "bearer"), w) ∧
    jwt.decode tok (SECRET_KEY w) [ALGORITHM] w = (Return claims, w) ∧
    dict_get claims "sub" = VStr (AuthIn.email payload).
Proof.
  intros Hlookup Hverify.
  destruct (issued_token_decodes (AuthIn.email payload) w w eq_refl)
    as (tok & claims & Hissue & Hdecode & Hsub).
  { pose proof expiry_window_nonneg. lia. }
  exists tok, claims. split; [|split; [exact Hdecode|exact Hsub]].
  unfold login. erewrite bind_Return; [|exact Hlookup]. cbv beta iota.
  erewrite bind_Return;
    [|rewrite verify_password_unfold, Hverify; reflexivity].
  cbv beta iota. unfold negb.
  erewrite bind_Return; [|exact Hissue]. reflexivity.
Qed.

(** X3: [login], case by case: no user, or a password that does not verify,
    gives the 400; a password that verifies gives a bearer token that decodes
    to the subject [email]; a failure of the store or of the hasher
    propagates.  The state is left as it was in every case. *)
Theorem login_spec `{!BcryptHandler} `{!Builtins} `{!Signer}
    (payload : AuthIn.t) (w : World) :
  let email := AuthIn.email payload in
  match get_documents "agencyuser" (<["email" := VStr email]> ∅)
          (Some 1%nat) w with
  | (Return [], _) =>
      login payload w = (Raise (HTTPException 400 "Invalid credentials"), w)
  | (Return (user :: _), _) =>
      match pwd_context.verify (AuthIn.password payload)
              (dict_get_default user "password_hash" (VStr "")) with
      | Return true =>
          ∃ tok claims,
            login payload w = (Return (Token.mk tok "bearer"), w) ∧
            jwt.decode tok (SECRET_KEY w) [ALGORITHM] w = (Return claims, w) ∧
            dict_get claims "sub" = VStr email
      | Return false =>
          login payload w
          = (Raise (HTTPException 400 "Invalid credentials"), w)
      | Raise e => login payload w = (Raise e, w)
      end
  | (Raise e, _) => login payload w = (Raise e, w)
  end.
Proof.
  intros email.
  destruct (get_documents "agencyuser" (<["email" := VStr email]> ∅)
              (Some 1%nat) w) as [[[|user others]|e] w0] eqn:Hlookup;
    pose proof (get_documents_reads_only "agencyuser"
                  (<["email" := VStr email]> ∅) (Some 1%nat) w) as Hw;
    rewrite Hlookup in Hw; simpl in Hw; subst w0.
  - unfold login. erewrite bind_Return; [|exact Hlookup]. reflexivity.
  - destruct (pwd_context.verify _ _) as [[|]|e] eqn:Hverify.
    + exact (login_verified payload w user others Hlookup Hverify).
    + unfold login. erewrite bind_Return; [|exact Hlookup]. cbv beta iota.
      erewrite bind_Return;
        [|rewrite verify_password_unfold, Hverify; reflexivity].
      reflexivity.
    + unfold login. erewrite bind_Return; [|exact Hlookup]. cbv beta iota.
      erewrite bind_Raise; [reflexivity|].
      rewrite verify_password_unfold, Hverify. reflexivity.
  - unfold login. erewrite bind_Raise; [reflexivity|exact Hlookup].
Qed.

(** X4: Registration followed by login: when the email is free, the hasher
    returns a hash and that hash verifies the same password, [register] then
    [login] with the same credentials both succeed, and the token of the
    login decodes to the subject [email]. *)
Theorem register_then_login `{!BcryptHandler} `{!Builtins} `{!Signer}
    (payload : AuthIn.t) (w : World) (password_hash : string) :
  get_documents "agencyuser" (<["email" := VStr (AuthIn.email payload)]> ∅)
    (Some 1%nat) w = (Return [], w) →
  bcrypt_hash (entropy w (drawn w)) (AuthIn.password payload)
    = Return password_hash →
  pwd_context.verify (AuthIn.password payload) (VStr password_hash)
    = Return true →
  ∃ w' tok tok' claims,
    register payload w = (Return (Token.mk tok "bearer"), w') ∧
    login payload w' = (Return (Token.mk tok' "bearer"), w') ∧
    jwt.decode tok' (SECRET_KEY w') [ALGORITHM] w' = (Return claims, w') ∧
    dict_get claims "sub" = VStr (AuthIn.email payload).
Proof.
  intros Hfree Hhash Hverify.
  destruct (register_free payload w password_hash Hfree Hhash)
    as (tok & Hreg & _).
  set (email := AuthIn.email payload) in *.
  set (w' := registered email password_hash w) in *.
  assert (Hstored :
    dict_get_default (user_document email password_hash) "password_hash"
      (VStr "") = VStr password_hash).
  { unfold dict_get_default, user_document.
    rewrite lookup_insert_ne by done. by rewrite lookup_insert_eq. }
  destruct (login_verified payload w'
              (user_document email password_hash) [])
    as (tok' & claims & Hlog & Hdecode & Hsub).
  { exact (lookup_after_register email password_hash w Hfree). }
  { fold email. rewrite Hstored. exact Hverify. }
  exists w', tok, tok', claims. split; [exact Hreg|].
  split; [exact Hlog|]. split; [exact Hdecode|exact Hsub].
Qed.

(** X5: Registration followed by [/me]: the token [register] returns, presented
    to [/me], is answered with the email registered and the part of it
    before the first "@" as name. *)
Theorem register_then_me `{!BcryptHandler} `{!Builtins} `{!Signer}
    (payload : AuthIn.t) (w : World) (password_hash : string) :
  get_documents "agencyuser" (<["email" := VStr (AuthIn.email payload)]> ∅)
    (Some 1%nat) w = (Return [], w) →
  bcrypt_hash (entropy w (drawn w)) (AuthIn.password payload)
    = Return password_hash →
  ∃ w' tok,
    register payload w = (Return (Token.mk tok "bearer"), w') ∧
    me_route tok w'
    = (Return (<["email" := VStr (AuthIn.email payload)]>
                 (<["name" := VStr (local_part (AuthIn.email payload))]> ∅)),
       w').
Proof.
  intros Hfree Hhash.
  destruct (register_free payload w password_hash Hfree Hhash)
    as (tok & Hreg & Hissue).
  set (email := AuthIn.email payload) in *.
  set (w' := registered email password_hash w) in *.
  exists w', tok. split; [exact Hreg|].
  destruct (issued_token_decodes email w' w' eq_refl)
    as (tok' & claims & Hissue' & Hdecode & Hsub).
  { pose proof expiry_window_nonneg. lia. }
  rewrite Hissue in Hissue'. injection Hissue' as <-.
  rewrite me_route_unfold, (get_current_user_decoded _ _ _ Hdecode), Hsub.
  rewrite bool_decide_eq_false_2 by discriminate.
  erewrite bind_Return;
    [|exact (lookup_after_register email password_hash w Hfree)].
  reflexivity.
Qed.

(** ** Tokens that are refused *)

Lemma get_current_user_decode_fails `{!Builtins} `{!Signer} tok (w : World) msg :
  jwt.decode tok (SECRET_KEY w) [ALGORITHM] w = (Raise (JWTError msg), w) →
  get_current_user tok w = (Raise credentials_exception, w).
Proof.
  intros Hdecode. unfold get_current_user.
  erewrite (bind_Raise (try_except _ _ _)); [reflexivity|].
  rewrite (try_except_caught _ _ _ _ (JWTError msg) w);
    [reflexivity| |reflexivity].
  unfold mbind at 1, M_bind at 1, gets. cbv beta iota.
  erewrite bind_Raise; [reflexivity|exact Hdecode].
Qed.

(** X6: A token issued by [create_access_token] is refused with the 401 once the
    clock, in whole seconds, has passed its expiry, 24 hours after it was
    issued; the store is not consulted. *)
Theorem expired_token_refused `{!Builtins} `{!Signer} (email : string) (w1 w2 : World) :
  jwt.timegm (utcnow w1 + timedelta_minutes ACCESS_TOKEN_EXPIRE_MINUTES)
    < jwt.timegm (utcnow w2) →
  ∃ tok,
    create_access_token (<["sub" := VStr email]> ∅) None w1
      = (Return tok, w1) ∧
    get_current_user tok w2
      = (Raise (HTTPException 401 "Could not validate credentials"), w2).
Proof.
  intros Hlate.
  pose proof (create_access_token_sub email w1) as Hissue. cbv zeta in Hissue.
  set (exp := jwt.timegm
         (utcnow w1 + timedelta_minutes ACCESS_TOKEN_EXPIRE_MINUTES)) in *.
  set (payload := <["exp" := VInt exp]> (<["sub" := VStr email]> ∅)) in *.
  eexists. split; [exact Hissue|].
  destruct (bool_decide
              (sign ALGORITHM (SECRET_KEY w1) payload
               = sign ALGORITHM (SECRET_KEY w2) payload)) eqn:Hsig.
  - apply (get_current_user_decode_fails _ _ "Signature has expired.").
    unfold jwt.decode.
    rewrite (bool_decide_eq_true_2 (ALGORITHM ∈ [ALGORITHM]))
      by constructor.
    rewrite Hsig. cbv beta iota. unfold negb.
    unfold mbind, M_bind, datetime_utcnow, gets, lift.
    unfold payload. rewrite validate_claims_issued.
    by rewrite (bool_decide_eq_true_2 _ Hlate).
  - apply (get_current_user_decode_fails _ _
             "Signature verification failed.").
    unfold jwt.decode.
    rewrite (bool_decide_eq_true_2 (ALGORITHM ∈ [ALGORITHM]))
      by constructor.
    rewrite Hsig. reflexivity.
Qed.

(** X7: A bearer string that is no token, a token of another algorithm, and a
    token whose signature is not the one the configured key gives for its
    payload (a forged or altered payload, a token signed under another key)
    are all refused with the 401, before the store is consulted: also when
    the store is down. *)
Theorem unsigned_token_refused `{!Builtins} `{!Signer} (tok : token) (w : World) :
  match tok with
  | Opaque _ => True
  | JWS alg payload signature =>
      alg ≠ ALGORITHM ∨ signature ≠ sign alg (SECRET_KEY w) payload
  end →
  get_current_user tok w
    = (Raise (HTTPException 401 "Could not validate credentials"), w) ∧
  status_of (get_current_user tok w).1 = 401.
Proof.
  intros Hbad.
  assert (Hrun : get_current_user tok w = (Raise credentials_exception, w)).
  { destruct tok as [alg payload signature|s].
    - destruct (bool_decide (alg ∈ [ALGORITHM])) eqn:Halg.
      + apply bool_decide_eq_true_1 in Halg.
        apply list_elem_of_singleton in Halg.
        destruct Hbad as [Hbad|Hbad]; [done|].
        apply (get_current_user_decode_fails _ _
                 "Signature verification failed.").
        unfold jwt.decode.
        rewrite (bool_decide_eq_true_2 (alg ∈ [ALGORITHM]))
          by (subst alg; constructor).
        by rewrite (bool_decide_eq_false_2 _ Hbad).
      + apply (get_current_user_decode_fails _ _
                 "The specified alg value is not allowed").
        unfold jwt.decode. by rewrite Halg.
    - by apply (get_current_user_decode_fails _ _ "Not enough segments"). }
  rewrite Hrun. split; reflexivity.
Qed.


(** ** The store behind [get_current_user] *)

(** X9: With a token that verifies and carries a subject, a failure of the store
    is not turned into the 401: the lookup is outside the [try] block, the
    storage exception leaves [get_current_user] and the framework answers
    500. *)
Theorem get_current_user_store_down `{!Builtins} `{!Signer} (tok : token) (w : World)
    (payload : gmap string value) (msg : string) :
  jwt.decode tok (SECRET_KEY w) [ALGORITHM] w = (Return payload, w) →
  dict_get payload "sub" ≠ VNone →
  outage (store w) = Some msg →
  get_current_user tok w = (Raise (Exception msg), w) ∧
  status_of (get_current_user tok w).1 = 500.
Proof.
  intros Hdecode Hsub Hdown.
  assert (Hrun : get_current_user tok w = (Raise (Exception msg), w)).
  { rewrite (get_current_user_decoded _ _ _ Hdecode).
    rewrite (bool_decide_eq_false_2 _ Hsub).
    erewrite bind_Raise; [reflexivity|].
    unfold get_documents, mbind, M_bind, get, raise. simpl.
    by rewrite Hdown. }
  rewrite Hrun. split; reflexivity.
Qed.

(** ** One record per email *)

Lemma register_final_state `{!BcryptHandler} `{!Signer} payload (w : World) :
  (register payload w).2 = w ∨
  (register payload w).2 = set_drawn (S (drawn w)) w ∨
  ∃ password_hash,
    get_documents "agencyuser"
      (<["email" := VStr (AuthIn.email payload)]> ∅) (Some 1%nat) w
      = (Return [], w) ∧
    (register payload w).2 = registered (AuthIn.email payload) password_hash w.
Proof.
  destruct (get_documents "agencyuser"
              (<["email" := VStr (AuthIn.email payload)]> ∅)
              (Some 1%nat) w) as [[[|user others]|e] w0] eqn:Hlookup;
    pose proof (get_documents_reads_only "agencyuser"
                  (<["email" := VStr (AuthIn.email payload)]> ∅)
                  (Some 1%nat) w) as Hw;
    rewrite Hlookup in Hw; simpl in Hw; subst w0.
  - destruct (bcrypt_hash (entropy w (drawn w)) (AuthIn.password payload))
      as [password_hash|e] eqn:Hhash.
    + right; right. exists password_hash. split; [reflexivity|].
      destruct (register_free payload w password_hash Hlookup Hhash)
        as (tok & Hreg & _). by rewrite Hreg.
    + right; left. unfold register.
      erewrite bind_Return; [|exact Hlookup]. cbv beta iota. unfold truthy.
      erewrite bind_Raise; [reflexivity|].
      rewrite get_password_hash_run, Hhash. reflexivity.
  - left. by rewrite (register_taken payload w user others Hlookup).
  - left. unfold register. erewrite bind_Raise; [reflexivity|exact Hlookup].
Qed.

(** X11: [register] keeps the emails of [agencyuser] unique: if no two records
    share an email before a call, none do after it, whether the call
    succeeds or fails. *)
Theorem register_keeps_unique_emails `{!BcryptHandler} `{!Signer}
    (payload : AuthIn.t) (w : World) :
  unique_emails w → unique_emails (register payload w).2.
Proof.
  intros Huniq.
  destruct (register_final_state payload w)
    as [Hw|[Hw|(password_hash & Hfree & Hw)]]; rewrite Hw.
  - exact Huniq.
  - exact Huniq.
  - set (email := AuthIn.email payload) in *.
    pose proof (get_documents_found _ _ _ _ _ _ Hfree) as Hnone.
    set (users := default [] (collections (store w) !! "agencyuser")) in *.
    assert (Hsame :
      filter (λ d : gmap string value,
                map_Forall (λ k v, d !! k = Some v)
                  (<["email" := VStr email]> ∅)) users
      = filter (λ d : gmap string value, d !! "email" = Some (VStr email))
          users).
    { apply list_filter_iff. intros d.
      by rewrite insert_empty, map_Forall_singleton. }
    assert (Hold :
      filter (λ d : gmap string value, d !! "email" = Some (VStr email))
        users = []).
    { rewrite <- Hsame.
      destruct (filter _ users); [reflexivity|discriminate Hnone]. }
    intros e. unfold registered. simpl. rewrite lookup_insert_eq. simpl.
    fold users. rewrite filter_app, length_app.
    destruct (decide (e = VStr email)) as [->|Hne].
    + rewrite Hold. simpl. apply length_filter.
    + rewrite filter_cons_False, filter_nil.
      * specialize (Huniq e). fold users in Huniq. simpl. lia.
      * unfold user_document. rewrite lookup_insert_eq. congruence.
Qed.

(** ** [/test]: the fields read from the environment *)

Lemma try_except_Exception_returns {S} (body : M S ()) handler :
  (∀ e s, ∃ s', handler e s = (Return (), s')) →
  ∀ s, ∃ s', try_except body is_Exception handler s = (Return (), s').
Proof.
  intros Hh s. unfold try_except.
  destruct (body s) as [[[]|e] s']; [by eexists|]. simpl. apply Hh.
Qed.

(** X12: The [database_url] and [database_name] of the response of
    [test_database] report only whether [DATABASE_URL] and [DATABASE_NAME]
    are set to a non-empty value: the values assigned from the handle before
    (["✅ Configured"], [db.name]) never reach the response, whatever the
    handle is or raises. *)
Theorem test_database_env_fields (w : World) :
  ∃ response,
    test_database w = (Return response, w) ∧
    Response.database_url response
      = Some (match environ w !! "DATABASE_URL" with
              | Some (String _ _) => "✅ Set"
              | _ => "❌ Not Set"
              end) ∧
    Response.database_name response
      = Some (match environ w !! "DATABASE_NAME" with
              | Some (String _ _) => "✅ Set"
              | _ => "❌ Not Set"
              end).
Proof.
  assert (Hif : ∀ v : option string,
    (if env_truthy v then "✅ Set" else "❌ Not Set")
    = match v with Some (String _ _) => "✅ Set" | _ => "❌ Not Set" end).
  { by intros [[|c s]|]. }
  rewrite <- !Hif. clear Hif.
  unfold test_database, test_database_body.
  unfold mbind at 1, M_bind at 1, get at 1, lift. cbv beta iota.
  match goal with
  | |- context [try_except ?body is_Exception ?handler] =>
      destruct (try_except_Exception_returns body handler) with
        (s := initial_response) as [r Hr]
  end.
  { intros e s. by eexists. }
  erewrite bind_Return; [|exact Hr].
  eexists. split; [reflexivity|]. split; reflexivity.
Qed.
(** ** [str.split] and the name [register] stores *)

Lemma split_nonempty (sep : ascii) (s : string) : split sep s ≠ [].
Proof.
  destruct s as [|c s]; simpl; [done|].
  case_bool_decide; [done|]. by destruct (split sep s).
Qed.

(** X13: [split] and [join] are inverse: joining the pieces of [s.split(sep)] with
    [sep] gives [s] back; there is always at least one piece, so indexing
    the first never fails, and no piece contains the separator. *)
Theorem join_split (sep : ascii) (s : string) :
  join (String sep EmptyString) (split sep s) = s ∧
  split sep s ≠ [] ∧
  Forall (λ piece, str_contains sep piece = false) (split sep s).
Proof.
  split; [|split; [apply split_nonempty|]].
  - induction s as [|c s IH]; simpl; [reflexivity|].
    case_bool_decide as Hc.
    + subst c. pose proof (split_nonempty sep s) as Hne.
      destruct (split sep s) as [|p ps]; [done|].
      simpl in *. by rewrite IH.
    + pose proof (split_nonempty sep s) as Hne.
      destruct (split sep s) as [|p ps]; [done|].
      destruct ps as [|q qs]; simpl in *; by rewrite <- IH.
  - induction s as [|c s IH]; simpl; [by repeat constructor|].
    case_bool_decide as Hc.
    + by constructor.
    + pose proof (split_nonempty sep s) as Hne.
      destruct (split sep s) as [|p ps]; [done|].
      inversion IH as [|? ? Hp Hps]; subst. constructor; [|done].
      simpl. by rewrite (bool_decide_eq_false_2 _ Hc).
Qed.

(** X14: The name [register] stores is the longest prefix of the email without
    "@": it contains no "@", and the email is that name followed by nothing
    or by "@" and a rest; for an email without "@" it is the whole email. *)
Theorem local_part_prefix (email : string) :
  str_contains "@" (local_part email) = false ∧
  (email = local_part email ∨
   ∃ rest, email = local_part email +:+ String "@" rest) ∧
  (str_contains "@" email = false → local_part email = email).
Proof.
  unfold local_part.
  induction email as [|c s IH]; simpl; [by repeat split; auto|].
  case_bool_decide as Hc.
  - subst c. split; [done|]. split; [right; by exists s|]. done.
  - pose proof (split_nonempty "@" s) as Hne.
    destruct (split "@" s) as [|p ps]; [done|].
    destruct IH as (Hno & Hshape & Hwhole). simpl.
    rewrite (bool_decide_eq_false_2 _ Hc). simpl.
    split; [exact Hno|]. split.
    + destruct Hshape as [->|[rest ->]]; [by left|right; by exists rest].
    + intros Hs. by rewrite (Hwhole Hs).
Qed.

(** ** The payload of an issued token *)

(** X15: [create_access_token] keeps every claim it is given and sets [exp],
    replacing an [exp] of the caller, to the clock plus the expiry window in
    whole seconds; the window is [expires_delta], and 24 hours when
    [expires_delta] is [None] or is the zero duration.  This holds for data
    without datetime values and an expiry inside the range of [datetime]
    (past it the sum raises [OverflowError]); the state is not changed. *)
Theorem create_access_token_payload `{!Signer} (data : gmap string value)
    (expires_delta : option Z) (w : World) :
  map_Forall (λ _ v, jwt.is_datetime v = false) data →
  let window :=
    match expires_delta with
    | Some d => if bool_decide (d = 0) then 86400000000 else d
    | None => 86400000000
    end in
  datetime_min ≤ utcnow w + window ≤ datetime_max →
  let payload := <["exp" := VInt ((utcnow w + window) `div` 1000000)]> data in
  create_access_token data expires_delta w
  = (Return (JWS "HS256" payload (sign "HS256" (SECRET_KEY w) payload)), w).
Proof.
  intros Hdata window _ payload.
  assert (Hwindow :
    or_timedelta expires_delta
      (timedelta_minutes ACCESS_TOKEN_EXPIRE_MINUTES) = window).
  { unfold or_timedelta, window. destruct expires_delta as [d|]; reflexivity. }
  unfold create_access_token, mbind, M_bind, datetime_utcnow, gets, lift.
  cbv beta iota. rewrite Hwindow. unfold payload. clear Hwindow payload.
  generalize (utcnow w + window). intros expire.
  assert (Hother : ∀ k, k ≠ "exp" →
    jwt.to_intdate k (<["exp" := VDatetime expire]> data)
    = <["exp" := VDatetime expire]> data).
  { intros k Hk. unfold jwt.to_intdate.
    rewrite lookup_insert_ne by done.
    destruct (data !! k) as [v|] eqn:Hv; [|reflexivity].
    specialize (Hdata k v Hv). by destruct v. }
  unfold jwt.encode. simpl.
  rewrite (Hother "nbf") by done. rewrite (Hother "iat") by done.
  unfold jwt.to_intdate. rewrite lookup_insert_eq, insert_insert_eq.
  rewrite bool_decide_eq_true_2; [reflexivity|].
  apply map_Forall_insert_2; [reflexivity|exact Hdata].
Qed.

(** ** Witnesses of the further properties *)

Lemma register_then_login_witness :
  ∃ w' tok tok' claims,
    @register fake_bcrypt fake_signer alice world0
      = (Return (Token.mk tok "bearer"), w') ∧
    @login fake_bcrypt fake_signer alice w'
      = (Return (Token.mk tok' "bearer"), w') ∧
    @jwt.decode fake_builtins fake_signer tok' (SECRET_KEY w') [ALGORITHM] w'
      = (Return claims, w') ∧
    dict_get claims "sub" = VStr (AuthIn.email alice).
Proof.
  apply (@register_then_login fake_bcrypt fake_builtins fake_signer alice world0
           alice_hash).
  - vm_compute. reflexivity.
  - vm_compute. reflexivity.
  - vm_compute. reflexivity.
Defined.

Lemma register_then_me_witness :
  ∃ w' tok,
    @register fake_bcrypt fake_signer alice world0
      = (Return (Token.mk tok "bearer"), w') ∧
    @me_route fake_builtins fake_signer tok w'
    = (Return (<["email" := VStr (AuthIn.email alice)]>
                 (<["name" := VStr (local_part (AuthIn.email alice))]> ∅)),
       w').
Proof.
  apply (@register_then_me fake_bcrypt fake_builtins fake_signer alice world0 alice_hash).
  - vm_compute. reflexivity.
  - vm_compute. reflexivity.
Defined.

Lemma expired_token_refused_witness :
  ∃ tok,
    @create_access_token fake_signer
      (<["sub" := VStr "alice@example.com"]> ∅) None world0
      = (Return tok, world0) ∧
    @get_current_user fake_builtins fake_signer tok world_late
      = (Raise (HTTPException 401 "Could not validate credentials"),
         world_late).
Proof.
  apply (@expired_token_refused fake_builtins fake_signer "alice@example.com" world0
           world_late).
  vm_compute. reflexivity.
Defined.

Lemma unsigned_token_refused_witness :
  @get_current_user fake_builtins fake_signer alice_token world_rekeyed
    = (Raise (HTTPException 401 "Could not validate credentials"),
       world_rekeyed) ∧
  status_of (@get_current_user fake_builtins fake_signer alice_token world_rekeyed).1 = 401.
Proof.
  apply (@unsigned_token_refused fake_builtins fake_signer alice_token world_rekeyed).
  right. vm_compute. discriminate.
Defined.


Lemma get_current_user_store_down_witness :
  @get_current_user fake_builtins fake_signer alice_token world_down
    = (Raise (Exception "connection refused"), world_down) ∧
  status_of (@get_current_user fake_builtins fake_signer alice_token world_down).1 = 500.
Proof.
  apply (@get_current_user_store_down fake_builtins fake_signer alice_token world_down
           alice_claims "connection refused").
  - vm_compute. reflexivity.
  - vm_compute. discriminate.
  - reflexivity.
Defined.


Lemma login_missing_hash_witness :
  @login fake_bcrypt fake_signer (AuthIn.mk "bob@example.com" "pw") world_bob
    = (Raise UnknownHashError, world_bob) ∧
  status_of (@login fake_bcrypt fake_signer
               (AuthIn.mk "bob@example.com" "pw") world_bob).1 = 500.
Proof.
  apply (@login_missing_hash fake_bcrypt fake_signer
           (AuthIn.mk "bob@example.com" "pw") world_bob
           (<["email" := VStr "bob@example.com"]>
              (<["name" := VStr "bob"]> ∅)) []).
  - vm_compute. reflexivity.
  - vm_compute. reflexivity.
Defined.

Lemma register_keeps_unique_emails_witness :
  unique_emails
    (@register fake_bcrypt fake_signer
       (AuthIn.mk "carol@example.com" "pw") world_alice).2.
Proof.
  apply (@register_keeps_unique_emails fake_bcrypt fake_signer
           (AuthIn.mk "carol@example.com" "pw") world_alice).
  intros email.
  change (default [] (collections (store world_alice) !! "agencyuser"))
    with [user_document "alice@example.com" alice_hash].
  rewrite filter_cons, filter_nil.
  case_decide; simpl; lia.
Defined.

Lemma create_access_token_payload_witness :
  @create_access_token fake_signer
    (<["sub" := VStr "alice@example.com"]> (<["exp" := VInt 0]> ∅))
    (Some 0) world0
  = (Return
       (JWS "HS256"
          (<["exp" := VInt ((utcnow world0 + 86400000000) `div` 1000000)]>
             (<["sub" := VStr "alice@example.com"]> (<["exp" := VInt 0]> ∅)))
          (@sign fake_signer "HS256" (SECRET_KEY world0)
             (<["exp" := VInt ((utcnow world0 + 86400000000) `div` 1000000)]>
                (<["sub" := VStr "alice@example.com"]>
                   (<["exp" := VInt 0]> ∅))))),
     world0).
Proof.
  apply (@create_access_token_payload fake_signer
           (<["sub" := VStr "alice@example.com"]> (<["exp" := VInt 0]> ∅))
           (Some 0) world0).
  - apply map_Forall_insert_2; [reflexivity|].
    apply map_Forall_insert_2; [reflexivity|]. apply map_Forall_empty.
  - vm_compute. split; discriminate.
Defined.
